(** * TubeMind AI: the fetch-and-summarise pipeline of [app.py]

    A shallow embedding of the Streamlit script: the three YouTube
    Data API stages ([get_channel_stats], [get_video_ids],
    [get_video_details]), the Gemini stage ([analyze_with_gemini]) and the
    script body that chains them.  Upstream services, pandas' table
    rendering and Streamlit's widgets are external collaborators: they
    appear as an environment of oracles, and every call made to them is
    recorded in an effect trace. *)

From Stdlib Require Import ZArith QArith Ascii String List.
From stdpp Require Import base option list strings gmap fin_maps.

#[local] Set Warnings "-register-all".

Local Open Scope string_scope.
Local Open Scope Z_scope.

(** ** Python values that [json.loads] can produce *)

Module Py.

(** A Python [float]: binary64 values are rationals, two infinities or a NaN.
    Only truthiness and [int()] are ever applied to one here. *)
Inductive pyfloat : Type :=
  | Finite (q : Q)
  | Inf (negative : bool)
  | NaN.

(** [None], [bool], [int], [float], [str], [list] and [dict] with string keys.
    Strings hold the text byte-wise; the ASCII range is exact. *)
Inductive json : Type :=
  | JNull
  | JBool (b : bool)
  | JInt (z : Z)
  | JFloat (f : pyfloat)
  | JStr (s : string)
  | JList (l : list json)
  | JDict (d : gmap string json).

(** The exceptions the script can meet.  [UpstreamError] stands for whatever
    [Exception] an SDK call raises (HTTP error, quota, transport);
    [StopException] is Streamlit's script-control signal, a [BaseException]
    that [except Exception] does not catch. *)
Inductive exn : Type :=
  | KeyError (key : json)
  | IndexError
  | TypeError
  | ValueError
  | AttributeError
  | OverflowError
  | UpstreamError (msg : string)
  | StopException.

Definition is_Exception (e : exn) : bool :=
  match e with
  | StopException => false
  | _ => true
  end.

(** Results of fallible pure code: [inl e] is a raised exception. *)
Definition result (A : Type) : Type := exn + A.
Definition Ok {A} (a : A) : result A := inr a.
Definition Raise {A} (e : exn) : result A := inl e.

Definition rbind {A B} (r : result A) (k : A → result B) : result B :=
  match r with
  | inl e => inl e
  | inr a => k a
  end.

(** [bool(x)] *)
Definition float_truthy (f : pyfloat) : bool :=
  match f with
  | Finite q => negb (Z.eqb (Qnum q) 0)
  | Inf _ | NaN => true
  end.

Definition truthy (v : json) : bool :=
  match v with
  | JNull => false
  | JBool b => b
  | JInt z => negb (Z.eqb z 0)
  | JFloat f => float_truthy f
  | JStr s => negb (String.eqb s "")
  | JList l => match l with [] => false | _ :: _ => true end
  | JDict d => negb (bool_decide (d = ∅))
  end.

(** [x[k]] for a string key [k] *)
Definition getitem (v : json) (k : string) : result json :=
  match v with
  | JDict d => match d !! k with
               | Some x => Ok x
               | None => Raise (KeyError (JStr k))
               end
  | _ => Raise TypeError
  end.

(** [x[0]] *)
Definition getitem0 (v : json) : result json :=
  match v with
  | JList l => match l with
               | x :: _ => Ok x
               | [] => Raise IndexError
               end
  | JStr s => match s with
              | String c _ => Ok (JStr (String c ""))
              | EmptyString => Raise IndexError
              end
  | JDict _ => Raise (KeyError (JInt 0))
  | _ => Raise TypeError
  end.

(** [x.get(k, default)]: only [dict] has the method. *)
Definition get (v : json) (k : string) (default : json) : result json :=
  match v with
  | JDict d => match d !! k with
               | Some x => Ok x
               | None => Ok default
               end
  | _ => Raise AttributeError
  end.

(** [for x in v]: the elements a [for] loop visits.  A [dict] yields its
    keys (the order is the map's, not Python's insertion order; no loop of
    the script gets past the first key of one). *)
Definition iter (v : json) : result (list json) :=
  match v with
  | JList l => Ok l
  | JStr s => Ok ((λ c, JStr (String c "")) <$> list_ascii_of_string s)
  | JDict d => Ok (JStr <$> (map_to_list d).*1)
  | _ => Raise TypeError
  end.

(** *** [int(x)] *)

(** The characters [int()] skips around a number: space, tab, line feed,
    vertical tab, form feed and carriage return. *)
Definition is_space (c : ascii) : bool :=
  let n := N_of_ascii c in
  ((9 <=? n) && (n <=? 13) || (n =? 32))%N.

Definition is_ascii (c : ascii) : bool := (N_of_ascii c <? 128)%N.

(** The interpreter's default limit on the digits of a decimal literal
    ([sys.int_max_str_digits]). *)
Definition int_max_str_digits : nat := 4300.

Definition digit_val (c : ascii) : option Z :=
  let n := Z.of_N (N_of_ascii c) in
  if (48 <=? n) && (n <=? 57) then Some (n - 48) else None.

Fixpoint lstrip (cs : list ascii) : list ascii :=
  match cs with
  | c :: r => if is_space c then lstrip r else cs
  | [] => []
  end.

Definition strip (cs : list ascii) : list ascii :=
  rev (lstrip (rev (lstrip cs))).

(** Decimal digits, with single underscores allowed between two digits.
    [prev] tells whether the previous character was a digit. *)
Fixpoint parse_digits (cs : list ascii) (acc : Z) (prev : bool) : option Z :=
  match cs with
  | [] => if prev then Some acc else None
  | c :: r =>
      if Ascii.eqb c "_" then
        if prev then parse_digits r acc false else None
      else
        match digit_val c with
        | Some d => parse_digits r (10 * acc + d) true
        | None => None
        end
  end.

(** [int(s)] for a string of ASCII characters, base 10: surrounding
    whitespace, an optional sign, then digits, at most
    [int_max_str_digits] of them. *)
Definition int_of_ascii (cs : list ascii) : option Z :=
  match strip cs with
  | c :: r =>
      let body := if Ascii.eqb c "-" || Ascii.eqb c "+" then r else c :: r in
      z ← parse_digits body 0 false;
      if (int_max_str_digits <? length (filter (λ d, d ≠ "_"%char) body))%nat
      then None
      else Some (if Ascii.eqb c "-" then - z else z)
  | [] => None
  end.

(** [int(s)]: an integer or [ValueError].  A string with characters
    outside ASCII is read with the interpreter's Unicode tables (which
    digits and spaces it knows depends on its version): [unicode_int]
    stands for that reading. *)
Definition int_of_string (unicode_int : string → option Z) (s : string) : result Z :=
  let cs := list_ascii_of_string s in
  let parsed := if forallb is_ascii cs then int_of_ascii cs else unicode_int s in
  match parsed with
  | Some z => Ok z
  | None => Raise ValueError
  end.

Definition int_of_float (f : pyfloat) : result Z :=
  match f with
  | Finite q => Ok (Z.quot (Qnum q) (Z.pos (Qden q)))
  | Inf _ => Raise OverflowError
  | NaN => Raise ValueError
  end.

Definition int (unicode_int : string → option Z) (v : json) : result Z :=
  match v with
  | JBool b => Ok (if b then 1 else 0)
  | JInt z => Ok z
  | JFloat f => int_of_float f
  | JStr s => int_of_string unicode_int s
  | JNull | JList _ | JDict _ => Raise TypeError
  end.

(** [sep.join(xs)]: every element must be a [str]. *)
Fixpoint join (sep : string) (xs : list json) : result string :=
  match xs with
  | [] => Ok ""
  | [JStr s] => Ok s
  | JStr s :: rest => rbind (join sep rest) (λ t, Ok (s +:+ sep +:+ t))
  | _ :: _ => Raise TypeError
  end.

End Py.


(** ** External collaborators and the effect trace *)

Import Py.

(** One row of the table the script builds: the dict literal of
    [get_video_details].  [Title] and [Thumbnail] are stored as received;
    the three counters went through [int()]. *)
Record VideoRecord : Type := {
  Title : json;
  Views : Z;
  Likes : Z;
  Comments : Z;
  Thumbnail : json
}.

(** A pandas [DataFrame] with a default [RangeIndex]: column labels, the
    dtype pandas gave each column (by its name, as in [df.dtypes]), and the
    rows in order, one cell per column. *)
Record DataFrame : Type := {
  columns : list string;
  dtypes : list string;
  rows : list (list json)
}.

(** Requests to the YouTube Data API, with the keyword arguments the script
    passes to [list(...)]. *)
Inductive request : Type :=
  | ChannelsList (part id : string)
  | PlaylistItemsList (part : string) (playlistId : json) (maxResults : Z)
  | VideosList (part id : string).

(** Local SDK set-up calls. *)
Inductive sdk_call : Type :=
  | genai_configure (api_key : json)
  | discovery_build (serviceName version : string) (developerKey : json).

(** Streamlit calls, in the vocabulary of the script.  A formatted string
    is kept as its fixed text and the interpolated value. *)
Inductive widget : Type :=
  | st_error (body : string)
  | st_error_exception (prefix : string) (e : exn)
  | st_stop
  | st_set_page_config (page_title page_icon layout : string)
  | st_title (body : string)
  | st_subheader (body : string)
  | st_sidebar
  | st_header (body : string)
  | st_text_input (label value : string)
  | st_button (label : string)
  | st_spinner (text : string)
  | st_image (src : json) (width : Z)
  | st_write (prefix : string) (value : json)
  | st_divider
  | st_columns (n : Z)
  | st_column (i : nat)
  | st_bar_chart (data : DataFrame) (x y : string)
  | st_line_chart (data : DataFrame) (x y : string)
  | st_success (body : string)
  | st_markdown (body : string).

Inductive effect : Type :=
  | Sdk (c : sdk_call)
  | Youtube (r : request)
  | Gemini (model prompt : string)
  | Streamlit (w : widget).

(** What the outside world answers.  [execute] is the whole of
    [youtube.X().list(...).execute()]; [generate_content] is
    [model.generate_content(prompt).text]; [to_string] is pandas'
    [DataFrame.to_string]; [infer_dtype] is the dtype pandas infers for a
    column from all of its values; [int_unicode] is [int()] on a string
    with characters outside ASCII. *)
Record env : Type := {
  sdk : sdk_call → result unit;
  execute : request → result json;
  generate_content : string → string → result string;
  render : widget → result unit;
  to_string : DataFrame → string;
  infer_dtype : list json → string;
  int_unicode : string → option Z
}.

(** An external request: a call that leaves the process. *)
Definition is_network (e : effect) : bool :=
  match e with
  | Youtube _ | Gemini _ _ => true
  | Sdk _ | Streamlit _ => false
  end.

Definition network_calls (t : list effect) : list effect := filter is_network t.

(** Requests of the stages after Channel Lookup: Playlist Enumerator,
    Video Detail Fetcher, Narrative Summarizer. *)
Definition is_later_stage (e : effect) : bool :=
  match e with
  | Youtube (PlaylistItemsList _ _ _) | Youtube (VideosList _ _) | Gemini _ _ => true
  | _ => false
  end.

(** *** The script monad: exceptions over a growing trace *)

Definition M (A : Type) : Type := list effect → result A * list effect.

Definition ret {A} (a : A) : M A := λ t, (Ok a, t).
Definition raise {A} (e : exn) : M A := λ t, (Raise e, t).
Definition lift {A} (r : result A) : M A := λ t, (r, t).

Definition bind {A B} (m : M A) (k : A → M B) : M B :=
  λ t, match m t with
       | (inl e, t') => (inl e, t')
       | (inr a, t') => k a t'
       end.

(** [try: body / except Exception as e: handler] *)
Definition try_except {A} (body : M A) (handler : exn → M A) : M A :=
  λ t, match body t with
       | (inl e, t') => if is_Exception e then handler e t' else (inl e, t')
       | (inr a, t') => (inr a, t')
       end.

(** [try: body / except: handler] (a bare [except] catches everything) *)
Definition try_except_bare {A} (body : M A) (handler : M A) : M A :=
  λ t, match body t with
       | (inl _, t') => handler t'
       | (inr a, t') => (inr a, t')
       end.

Definition perform {A} (e : effect) (answer : result A) : M A :=
  λ t, (answer, (t ++ [e])%list).

Declare Scope script_scope.
Delimit Scope script_scope with script.
Notation "'let*' x ':=' m 'in' k" := (bind m (λ x, k))
  (at level 10, x name, m at level 100, k at level 200) : script_scope.
Notation "m1 ;; m2" := (bind m1 (λ _, m2))
  (at level 100, m2 at level 200, right associativity) : script_scope.
Notation "'let?' x ':=' r 'in' k" := (rbind r (λ x, k))
  (at level 10, x name, r at level 100, k at level 200).
Local Open Scope script_scope.

Section Script.

Variable E : env.

Definition call_sdk (c : sdk_call) : M unit := perform (Sdk c) (sdk E c).
Definition call_execute (r : request) : M json := perform (Youtube r) (execute E r).
Definition call_generate (model prompt : string) : M string :=
  perform (Gemini model prompt) (generate_content E model prompt).
Definition draw (w : widget) : M unit := perform (Streamlit w) (render E w).

(** [st.stop()] ends the run by raising. *)
Definition stop {A} : M A := perform (Streamlit st_stop) (Raise StopException).

(** *** The engine *)

(** [for x in xs: acc.append(f(x))], stopping at the first exception. *)
Fixpoint for_append {A B} (f : A → result B) (xs : list A) (acc : list B)
  : result (list B) :=
  match xs with
  | [] => Ok acc
  | x :: r => let? y := f x in for_append f r (acc ++ [y])%list
  end.

Definition get_channel_stats (channel_id : string) : M json :=
  let* response :=
    call_execute (ChannelsList "snippet,contentDetails,statistics" channel_id) in
  let* items := lift (getitem response "items") in
  if truthy items then
    let* items := lift (getitem response "items") in
    lift (getitem0 items)
  else ret JNull.

(** The body of the loop of [get_video_ids]. *)
Definition video_id_of (item : json) : result json :=
  let? contentDetails := getitem item "contentDetails" in
  getitem contentDetails "videoId".

Definition get_video_ids (playlist_id : json) : M (list json) :=
  let* response := call_execute (PlaylistItemsList "contentDetails" playlist_id 10) in
  let* items := lift (getitem response "items") in
  let* items := lift (iter items) in
  lift (for_append video_id_of items []).

(** [int(stats.get(name, 0))] *)
Definition counter (stats : json) (name : string) : result Z :=
  let? v := get stats name (JInt 0) in
  int (int_unicode E) v.

(** The body of the loop of [get_video_details]: the two blocks are read
    first, then the dict literal is evaluated entry by entry. *)
Definition video_record (video : json) : result VideoRecord :=
  let? stats := getitem video "statistics" in
  let? snippet := getitem video "snippet" in
  let? title := getitem snippet "title" in
  let? views := counter stats "viewCount" in
  let? likes := counter stats "likeCount" in
  let? comments := counter stats "commentCount" in
  let? thumbnails := getitem snippet "thumbnails" in
  let? high := getitem thumbnails "high" in
  let? url := getitem high "url" in
  Ok {| Title := title; Views := views; Likes := likes;
        Comments := comments; Thumbnail := url |}.

Definition get_video_details (video_ids : list json) : M (list VideoRecord) :=
  let* id := lift (join "," video_ids) in
  let* response := call_execute (VideosList "snippet,statistics" id) in
  let* items := lift (getitem response "items") in
  let* items := lift (iter items) in
  lift (for_append video_record items []).

(** *** pandas, as far as the script uses it *)

Definition record_columns : list string :=
  ["Title"; "Views"; "Likes"; "Comments"; "Thumbnail"].

Definition row_of (r : VideoRecord) : list json :=
  [Title r; JInt (Views r); JInt (Likes r); JInt (Comments r); Thumbnail r].

(** [pd.DataFrame(data)] for a list of dicts: the columns are the keys met
    in the records, so an empty list gives a frame without any column; the
    dtype of a column is inferred from all the values of that column. *)
Definition record_dtypes (data : list VideoRecord) : list string :=
  [ infer_dtype E (Title <$> data);
    infer_dtype E ((λ r, JInt (Views r)) <$> data);
    infer_dtype E ((λ r, JInt (Likes r)) <$> data);
    infer_dtype E ((λ r, JInt (Comments r)) <$> data);
    infer_dtype E (Thumbnail <$> data) ].

Definition pd_DataFrame (data : list VideoRecord) : DataFrame :=
  {| columns := match data with [] => [] | _ :: _ => record_columns end;
     dtypes := match data with [] => [] | _ :: _ => record_dtypes data end;
     rows := row_of <$> data |}.

Fixpoint position (c : string) (cols : list string) : option nat :=
  match cols with
  | [] => None
  | c' :: r => if String.eqb c c' then Some O else S <$> position c r
  end.

Definition cell (cols : list string) (row : list json) (c : string) : json :=
  match position c cols with
  | Some p => default JNull (row !! p)
  | None => JNull
  end.

Definition column_dtype (df : DataFrame) (c : string) : string :=
  match position c (columns df) with
  | Some p => default "object" (dtypes df !! p)
  | None => "object"
  end.

(** [df[[c1, ..., cn]]]: the listed columns, with their dtypes, in the listed order; a label
    that is not a column raises [KeyError] (reported here with the missing
    labels). *)
Definition select (df : DataFrame) (labels : list string) : result DataFrame :=
  match filter (λ c, c ∉ columns df) labels with
  | [] => Ok {| columns := labels;
                dtypes := column_dtype df <$> labels;
                rows := (λ row, cell (columns df) row <$> labels) <$> rows df |}
  | missing => Raise (KeyError (JList (JStr <$> missing)))
  end.

(** [df.head(n)] *)
Definition head (n : nat) (df : DataFrame) : DataFrame :=
  {| columns := columns df; dtypes := dtypes df; rows := take n (rows df) |}.

(** *** The summarizer *)

Definition nl : string := String (ascii_of_nat 10) "".

(** The f-string of [analyze_with_gemini], line by line. *)
Definition prompt_of (data_summary : string) : string :=
  String.concat nl
    [ "";
      "    You are a viral content consultant. ";
      "    Analyze these video stats:";
      "    " +:+ data_summary;
      "    ";
      "    1. Identify the highest performing video.";
      "    2. Suggest 3 follow-up video titles that would go viral based on this style.";
      "    3. Keep it short and exciting.";
      "    " ].

Definition analyze_with_gemini (df : DataFrame) : M string :=
  let model := "gemini-2.5-flash" in
  let* selected := lift (select df ["Title"; "Views"; "Likes"]) in
  let data_summary := to_string E (head 5 selected) in
  let prompt := prompt_of data_summary in
  call_generate model prompt.

(** *** The script body *)

(** [x[k1][k2]...] *)
Fixpoint getpath (v : json) (ks : list string) : result json :=
  match ks with
  | [] => Ok v
  | k :: r => let? x := getitem v k in getpath x r
  end.

(** The block under [if st.session_state.get('analyze'):]. *)
Definition main_area (YOUTUBE_API_KEY : json) (channel_id_input : string) : M unit :=
  try_except
    (call_sdk (discovery_build "youtube" "v3" YOUTUBE_API_KEY) ;;
     draw (st_spinner "Fetching Channel Data...") ;;
     let* channel_info := get_channel_stats channel_id_input in
     if truthy channel_info then
       let* src := lift (getpath channel_info ["snippet"; "thumbnails"; "medium"; "url"]) in
       draw (st_image src 100) ;;
       let* title := lift (getpath channel_info ["snippet"; "title"]) in
       draw (st_write "**Channel:** " title) ;;
       let* subscribers := lift (getpath channel_info ["statistics"; "subscriberCount"]) in
       draw (st_write "**Subscribers:** " subscribers) ;;
       let* uploads_id :=
         lift (getpath channel_info ["contentDetails"; "relatedPlaylists"; "uploads"]) in
       let* video_ids := get_video_ids uploads_id in
       let* video_data := get_video_details video_ids in
       let df := pd_DataFrame video_data in
       draw st_divider ;;
       draw (st_columns 2) ;;
       draw (st_column 1) ;;
       draw (st_subheader "📈 View Count Analysis") ;;
       draw (st_bar_chart df "Title" "Views") ;;
       draw (st_column 2) ;;
       draw (st_subheader "👍 Likes Analysis") ;;
       draw (st_line_chart df "Title" "Likes") ;;
       draw st_divider ;;
       draw (st_subheader "🤖 AI Consultant Report") ;;
       draw (st_spinner "Gemini is analyzing the trends...") ;;
       let* analysis := analyze_with_gemini df in
       draw (st_success "Analysis Complete!") ;;
       draw (st_markdown analysis)
     else
       draw (st_error "Channel not found! Check the ID."))
    (λ e, draw (st_error_exception "Error: " e)).

Definition secrets_message : string :=
  "Secrets not found! If running locally, make sure you have a .streamlit/secrets.toml file.".

(** The secret store: [None] when there is no secrets file at all. *)
Definition read_secret (secrets : option (gmap string json)) (name : string)
  : result json :=
  match secrets with
  | Some store => getitem (JDict store) name
  | None => Raise (UpstreamError "secrets file not found")
  end.

(** The block under [SECRETS SETUP]: both keys, or the error box and
    [st.stop()]. *)
Definition load_secrets (secrets : option (gmap string json)) : M (json * json) :=
  try_except_bare
    (let* YOUTUBE_API_KEY := lift (read_secret secrets "YOUTUBE_API_KEY") in
     let* GEMINI_API_KEY := lift (read_secret secrets "GEMINI_API_KEY") in
     ret (YOUTUBE_API_KEY, GEMINI_API_KEY))
    (draw (st_error secrets_message) ;;
     stop).

(** One run of the script.  [channel_id_input] and [clicked] are what the
    user typed and did; [analyze] is the flag kept in the session state,
    and the run returns its new value. *)
Definition app (secrets : option (gmap string json))
    (channel_id_input : string) (clicked : bool) (analyze : bool) : M bool :=
  let* keys := load_secrets secrets in
  let YOUTUBE_API_KEY := keys.1 in
  let GEMINI_API_KEY := keys.2 in
  call_sdk (genai_configure GEMINI_API_KEY) ;;
  draw (st_set_page_config "TubeMind AI" "🧠" "wide") ;;
  draw (st_title "🧠 TubeMind AI") ;;
  draw (st_subheader "The AI-Powered Content Strategist") ;;
  draw st_sidebar ;;
  draw (st_header "👇 Enter Channel Details") ;;
  draw (st_text_input "YouTube Channel ID" "UCeVMnSShP_Iviwkknt83cww") ;;
  draw (st_button "Analyze Channel") ;;
  let analyze := if clicked then true else analyze in
  if analyze then (main_area YOUTUBE_API_KEY channel_id_input ;; ret analyze)
  else ret analyze.

End Script.

Arguments stop {A}.

(** ** Vocabulary of the statements *)

(** The three requests, with the fixed arguments of the script. *)
Definition channels_request (channel_id : string) : request :=
  ChannelsList "snippet,contentDetails,statistics" channel_id.

Definition playlist_request (playlist_id : json) : request :=
  PlaylistItemsList "contentDetails" playlist_id 10.

Definition videos_request (id : string) : request :=
  VideosList "snippet,statistics" id.

Definition is_dict (v : json) : Prop :=
  match v with JDict _ => True | _ => False end.

(** A credential is absent when the store has no entry of that name, or
    when there is no store at all. *)
Definition secret_absent (secrets : option (gmap string json)) (name : string) : Prop :=
  match secrets with
  | Some store => store !! name = None
  | None => True
  end.

Definition summary_columns : list string := ["Title"; "Views"; "Likes"].

(** The three cells of a record that reach the prompt. *)
Definition summary_row (r : VideoRecord) : list json :=
  [Title r; JInt (Views r); JInt (Likes r)].

(** The dtypes pandas gives the three columns of a record set: each is
    inferred from the whole column. *)
Definition summary_dtypes (E : env) (records : list VideoRecord) : list string :=
  [ infer_dtype E (Title <$> records);
    infer_dtype E ((λ r, JInt (Views r)) <$> records);
    infer_dtype E ((λ r, JInt (Likes r)) <$> records) ].

(** What a statistics block says about one counter: 0 when the field is
    absent, [int()] of its value when it is present. *)
Definition counter_reads (E : env) (stats : gmap string json) (name : string) (n : Z)
  : Prop :=
  match stats !! name with
  | None => n = 0
  | Some v => int (int_unicode E) v = Ok n
  end.

(** An item of a batch answer that reads as the record [r]: both blocks, a
    title, the high-resolution thumbnail, and the three counters. *)
Definition item_reads (E : env) (item : json) (r : VideoRecord) : Prop :=
  ∃ d stats snippet thumbnails high : gmap string json,
    item = JDict d ∧
    d !! "statistics" = Some (JDict stats) ∧
    d !! "snippet" = Some (JDict snippet) ∧
    snippet !! "title" = Some (Title r) ∧
    counter_reads E stats "viewCount" (Views r) ∧
    counter_reads E stats "likeCount" (Likes r) ∧
    counter_reads E stats "commentCount" (Comments r) ∧
    snippet !! "thumbnails" = Some (JDict thumbnails) ∧
    thumbnails !! "high" = Some (JDict high) ∧
    high !! "url" = Some (Thumbnail r).

(** An outcome that, when it is an exception, is one [except Exception]
    catches. *)
Definition catchable {A} (r : result A) : Prop :=
  ∀ e, r = Raise e → is_Exception e = true.

(** The position of a request in the pipeline: Channel Lookup, Playlist
    Enumerator, Video Detail Fetcher, Narrative Summarizer. *)
Definition stage_of (e : effect) : option nat :=
  match e with
  | Youtube (ChannelsList _ _) => Some 1%nat
  | Youtube (PlaylistItemsList _ _ _) => Some 2%nat
  | Youtube (VideosList _ _) => Some 3%nat
  | Gemini _ _ => Some 4%nat
  | Sdk _ | Streamlit _ => None
  end.

Definition stages (t : list effect) : list nat := omap stage_of t.

Definition is_str (v : json) : Prop :=
  match v with JStr _ => True | _ => False end.

(** Oracles that only ever raise what [except Exception] catches. *)
Definition tame (E : env) : Prop :=
  (∀ c, catchable (sdk E c)) ∧
  (∀ q, catchable (execute E q)) ∧
  (∀ m p, catchable (generate_content E m p)) ∧
  (∀ w, catchable (render E w)).

(** A computation that only extends the trace, whose requests are an
    initial part of the stage sequence [S], and whose exceptions are
    catchable when the oracles are tame. *)
Definition within (E : env) {A} (S : list nat) (m : M A) : Prop :=
  ∀ t, ∃ r added,
    m t = (r, (t ++ added)%list) ∧
    stages added `prefix_of` S ∧
    (tame E → catchable r).

(** The same, and a normal return means that all of [S] was requested. *)
Definition through (E : env) {A} (S : list nat) (m : M A) : Prop :=
  ∀ t, ∃ r added,
    m t = (r, (t ++ added)%list) ∧
    stages added `prefix_of` S ∧
    (∀ a, r = Ok a → stages added = S) ∧
    (tame E → catchable r).

(** The fixed output between the set-up and the main area. *)
Definition page_header (gemini : json) : list effect :=
  [ Sdk (genai_configure gemini);
    Streamlit (st_set_page_config "TubeMind AI" "🧠" "wide");
    Streamlit (st_title "🧠 TubeMind AI");
    Streamlit (st_subheader "The AI-Powered Content Strategist");
    Streamlit st_sidebar;
    Streamlit (st_header "👇 Enter Channel Details");
    Streamlit (st_text_input "YouTube Channel ID" "UCeVMnSShP_Iviwkknt83cww");
    Streamlit (st_button "Analyze Channel") ].

(** ** Sample worlds for closed examples *)

Module Sample.

Definition obj (kvs : list (string * json)) : json := JDict (list_to_map kvs).

Definition digit (n : nat) : string := String (ascii_of_nat (48 + n)) "".

Fixpoint decimal (fuel : nat) (n : nat) : string :=
  match fuel with
  | O => ""
  | S fuel' =>
      if (n <? 10)%nat then digit n
      else decimal fuel' (n / 10) +:+ digit (n mod 10)
  end.

(** A plain stand-in for pandas' renderer, good enough to run examples:
    one line per row, cells separated by a bar. *)
Definition show_cell (v : json) : string :=
  match v with
  | JStr s => s
  | JInt z => (if (z <? 0) then "-" else "") +:+ decimal 40 (Z.abs_nat z)
  | _ => "?"
  end.

Definition show_frame (df : DataFrame) : string :=
  String.concat nl
    (String.concat "|" (columns df)
     :: ((λ row, String.concat "|" (show_cell <$> row)) <$> rows df)).

Definition video (title : string) (stats : list (string * json)) : json :=
  obj [ ("snippet", obj [ ("title", JStr title);
                          ("thumbnails",
                           obj [("high", obj [("url", JStr ("https://img/" +:+ title))])]) ]);
        ("statistics", obj stats) ].

Definition channel : json :=
  obj [ ("snippet", obj [ ("title", JStr "Sample channel");
                          ("thumbnails",
                           obj [("medium", obj [("url", JStr "https://img/channel")])]) ]);
        ("statistics", obj [("subscriberCount", JStr "1200")]);
        ("contentDetails", obj [("relatedPlaylists", obj [("uploads", JStr "UU1")])]) ].

Definition playlist_item (id : string) : json :=
  obj [("contentDetails", obj [("videoId", JStr id)])].

(** Stand-ins for pandas' dtype inference and for the Unicode side of
    [int()]: whole numbers are ["int64"], anything else is ["object"], and
    no text outside ASCII is read as a number. *)
Definition guess_dtype (values : list json) : string :=
  if forallb (λ v, match v with JInt _ => true | _ => false end) values
  then "int64" else "object".

Definition ascii_only (s : string) : option Z := None.

(** A world described by its three YouTube answers. *)
Definition world (channels playlist videos : result json) : env :=
  {| sdk := λ _, Ok ();
     execute := λ r, match r with
                     | ChannelsList _ _ => channels
                     | PlaylistItemsList _ _ _ => playlist
                     | VideosList _ _ => videos
                     end;
     generate_content := λ _ _, Ok "Great channel!";
     render := λ _, Ok ();
     to_string := show_frame;
     infer_dtype := guess_dtype;
     int_unicode := ascii_only |}.

Definition items (l : list json) : result json := Ok (obj [("items", JList l)]).

(** A channel with two uploads; the batch answer lists them in the
    opposite order, and the second video has comments disabled. *)
Definition two_uploads : env :=
  world (items [channel])
        (items [playlist_item "a"; playlist_item "b"])
        (items [ video "b" [("viewCount", JStr "20"); ("likeCount", JStr "3")];
                 video "a" [("viewCount", JStr "100"); ("likeCount", JStr "10");
                            ("commentCount", JStr "4")] ]).

(** A channel without uploads. *)
Definition no_uploads : env := world (items [channel]) (items []) (items []).

(** An unknown channel. *)
Definition no_channel : env := world (items []) (items []) (items []).

(** An upstream that ignores the requested page size. *)
Definition eleven_ids : list string :=
  ["v01"; "v02"; "v03"; "v04"; "v05"; "v06"; "v07"; "v08"; "v09"; "v10"; "v11"].

Definition oversized_page : env :=
  world (items [channel]) (items (playlist_item <$> eleven_ids)) (items []).

(** A channels answer that has no [items] key at all. *)
Definition bare_answer : env := world (Ok (obj [])) (items []) (items []).

(** Items that miss a block or the high-resolution thumbnail. *)
Definition without_statistics : gmap string json :=
  list_to_map [("snippet", obj [("title", JStr "c")])].

Definition low_res_thumbnails : gmap string json :=
  list_to_map [("default", obj [("url", JStr "https://img/c/default")])].

Definition low_res_snippet : gmap string json :=
  list_to_map [("title", JStr "c"); ("thumbnails", JDict low_res_thumbnails)].

Definition without_high_thumbnail : gmap string json :=
  list_to_map [ ("snippet", JDict low_res_snippet);
                ("statistics", obj [("viewCount", JStr "7")]) ].

(** A batch answer whose second item is [item]. *)
Definition batch_with (item : json) : env :=
  world (items [channel])
        (items [playlist_item "a"; playlist_item "c"])
        (items [ video "a" [("viewCount", JStr "100")]; item ]).

Definition record (title : string) (views likes : Z) : VideoRecord :=
  {| Title := JStr title; Views := views; Likes := likes; Comments := 0;
     Thumbnail := JStr ("https://img/" +:+ title) |}.

(** Six records, the best-performing one last. *)
Definition six_records : list VideoRecord :=
  [ record "r1" 10 1; record "r2" 20 2; record "r3" 30 3;
    record "r4" 40 4; record "r5" 50 5; record "r6" 6000 600 ].

Definition keys_without_gemini : option (gmap string json) :=
  Some (list_to_map [("YOUTUBE_API_KEY", JStr "k1")]).

(** A channels request that fails upstream. *)
Definition failing_lookup : env :=
  world (Raise (UpstreamError "quotaExceeded")) (items []) (items []).

(** A channels answer whose first item is null. *)
Definition null_first : env :=
  world (items [JNull; channel]) (items []) (items []).

(** A channels answer whose first item is an empty object. *)
Definition hollow_channel : env := world (items [obj []]) (items []) (items []).

(** A playlist item that names no video. *)
Definition without_video_id : gmap string json :=
  list_to_map [("contentDetails", obj [])].

Definition playlist_with (item : json) : env :=
  world (items [channel]) (items [playlist_item "a"; item]) (items []).

(** Playlist and batch answers that are empty objects. *)
Definition bare_lists : env := world (items [channel]) (Ok (obj [])) (Ok (obj [])).

Definition both_keys : gmap string json :=
  list_to_map [("YOUTUBE_API_KEY", JStr "k1"); ("GEMINI_API_KEY", JStr "k2")].

(** The records of [six_records] with other comment counts and thumbnails,
    and another sixth record. *)
Definition six_other_records : list VideoRecord :=
  [ {| Title := JStr "r1"; Views := 10; Likes := 1; Comments := 9; Thumbnail := JNull |};
    {| Title := JStr "r2"; Views := 20; Likes := 2; Comments := 8; Thumbnail := JNull |};
    {| Title := JStr "r3"; Views := 30; Likes := 3; Comments := 7; Thumbnail := JNull |};
    {| Title := JStr "r4"; Views := 40; Likes := 4; Comments := 6; Thumbnail := JNull |};
    {| Title := JStr "r5"; Views := 50; Likes := 5; Comments := 5; Thumbnail := JNull |};
    record "other" 1 1 ].

(** The two records of [two_uploads], in the order of its batch answer. *)
Definition two_records : list VideoRecord :=
  [ {| Title := JStr "b"; Views := 20; Likes := 3; Comments := 0;
       Thumbnail := JStr "https://img/b" |};
    {| Title := JStr "a"; Views := 100; Likes := 10; Comments := 4;
       Thumbnail := JStr "https://img/a" |} ].

End Sample.

(** ** Python primitives on small inputs *)

Example int_examples :
  int Sample.ascii_only (JStr " 1_024 ") = Ok 1024 ∧
  int Sample.ascii_only (JStr "-7") = Ok (-7) ∧
  int Sample.ascii_only (JStr "1__0") = Raise ValueError ∧
  int Sample.ascii_only (JStr "") = Raise ValueError ∧
  int Sample.ascii_only (JStr (String (ascii_of_nat 28) "12")) = Raise ValueError ∧
  int Sample.ascii_only (JStr (String (ascii_of_nat 11) "12")) = Ok 12 ∧
  int Sample.ascii_only (JInt 0) = Ok 0 ∧
  int Sample.ascii_only JNull = Raise TypeError.
Proof. repeat split; reflexivity. Qed.

(** One digit more than the interpreter's limit is refused; text outside
    ASCII is left to the interpreter's tables. *)
Example int_limits :
  int Sample.ascii_only (JStr (string_of_list_ascii (replicate 4301 "0"%char)))
    = Raise ValueError ∧
  int Sample.ascii_only (JStr (string_of_list_ascii (replicate 4300 "0"%char)))
    = Ok 0 ∧
  int (λ _, Some 3)
      (JStr (string_of_list_ascii [ascii_of_nat 217; ascii_of_nat 163])) = Ok 3.
Proof. repeat split; vm_compute; reflexivity. Qed.

Example join_examples :
  join "," [] = Ok "" ∧
  join "," [JStr "a"; JStr "b"; JStr "c"] = Ok "a,b,c" ∧
  join "," [JStr "a"; JInt 3] = Raise TypeError.
Proof. repeat split; reflexivity. Qed.

Example dict_examples :
  getitem (JDict {[ "items" := JList [] ]}) "items" = Ok (JList []) ∧
  getitem (JDict ∅) "items" = Raise (KeyError (JStr "items")) ∧
  truthy (JDict {[ "a" := JNull ]}) = true ∧
  truthy (JDict ∅) = false.
Proof. repeat split; vm_compute; reflexivity. Qed.

(** ** Facts about the engine *)

Section Loop.

Context {A B : Type} (f : A → result B).

Lemma for_append_Ok (xs : list A) (acc out : list B) :
  for_append f xs acc = Ok out ↔
  ∃ ys, Forall2 (λ x y, f x = Ok y) xs ys ∧ out = (acc ++ ys)%list.
Proof.
  revert acc. induction xs as [|x xs IH]; intros acc; simpl.
  - split.
    + intros [= <-]. exists []. split; [constructor | by rewrite app_nil_r].
    + intros (ys & Hys & ->). inversion Hys. by rewrite app_nil_r.
  - destruct (f x) as [e|y] eqn:Hx; simpl.
    + split; [discriminate|].
      intros (ys & Hys & _). inversion Hys; subst. unfold Ok in *. congruence.
    + rewrite IH. split.
      * intros (ys & Hys & ->). exists (y :: ys). split.
        -- by constructor.
        -- by rewrite <- app_assoc.
      * intros (ys & Hys & ->). inversion Hys as [|? y' ? ys' Hy Hrest]; subst.
        assert (y' = y) as -> by (unfold Ok in *; congruence).
        exists ys'. split; [done | by rewrite <- app_assoc].
Qed.

Lemma for_append_Raise (xs : list A) (acc : list B) (x : A) (e : exn) :
  x ∈ xs → f x = Raise e → ∃ e', for_append f xs acc = Raise e'.
Proof.
  intros Hin Hx. revert acc.
  induction xs as [|x' xs IH]; intros acc; simpl.
  - by apply elem_of_nil in Hin.
  - apply elem_of_cons in Hin as [<- | Hin].
    + rewrite Hx. by exists e.
    + destruct (f x') as [e'|y]; simpl; [by exists e' | by apply IH].
Qed.

Lemma for_append_length (xs : list A) (out : list B) :
  for_append f xs [] = Ok out → length out = length xs.
Proof.
  rewrite for_append_Ok. intros (ys & Hys & ->). simpl.
  symmetry. by eapply Forall2_length.
Qed.

End Loop.

Section Stages.

Variable E : env.


(** Each fetching stage makes its one request and then works on the answer
    alone. *)
Lemma get_channel_stats_run (channel_id : string) (t : list effect) :
  get_channel_stats E channel_id t =
  (let? response := execute E (channels_request channel_id) in
   let? items := getitem response "items" in
   if truthy items then getitem0 items else Ok JNull,
   (t ++ [Youtube (channels_request channel_id)])%list).
Proof.
  unfold get_channel_stats, bind, call_execute, perform, lift, ret, channels_request.
  destruct (execute E _) as [e|response]; simpl; [done|].
  destruct (getitem response "items") as [e|items]; simpl; [done|].
  by destruct (truthy items).
Qed.

Lemma get_video_ids_run (playlist_id : json) (t : list effect) :
  get_video_ids E playlist_id t =
  (let? response := execute E (playlist_request playlist_id) in
   let? items := getitem response "items" in
   let? items := iter items in
   for_append video_id_of items [],
   (t ++ [Youtube (playlist_request playlist_id)])%list).
Proof.
  unfold get_video_ids, bind, call_execute, perform, lift, playlist_request.
  destruct (execute E _) as [e|response]; simpl; [done|].
  destruct (getitem response "items") as [e|items]; simpl; [done|].
  by destruct (iter items).
Qed.

Lemma get_video_details_run (video_ids : list json) (id : string) (t : list effect) :
  join "," video_ids = Ok id →
  get_video_details E video_ids t =
  (let? response := execute E (videos_request id) in
   let? items := getitem response "items" in
   let? items := iter items in
   for_append (video_record E) items [],
   (t ++ [Youtube (videos_request id)])%list).
Proof.
  intros Hid.
  unfold get_video_details, bind, call_execute, perform, lift, videos_request.
  rewrite Hid. simpl.
  destruct (execute E _) as [e|response]; simpl; [done|].
  destruct (getitem response "items") as [e|items]; simpl; [done|].
  by destruct (iter items).
Qed.

Lemma get_video_details_bad_ids (video_ids : list json) (e : exn) (t : list effect) :
  join "," video_ids = Raise e →
  get_video_details E video_ids t = (Raise e, t).
Proof.
  intros Hid. unfold get_video_details, bind, lift. by rewrite Hid.
Qed.

End Stages.

(** ** Video Detail Fetcher *)

Section Record_facts.

Variable E : env.

(** Reading the loop body on an item that is a dict with both blocks. *)
Lemma video_record_blocks (d : gmap string json) (stats snippet : json) :
  d !! "statistics" = Some stats →
  d !! "snippet" = Some snippet →
  video_record E (JDict d) =
  (let? title := getitem snippet "title" in
   let? views := counter E stats "viewCount" in
   let? likes := counter E stats "likeCount" in
   let? comments := counter E stats "commentCount" in
   let? url := getpath snippet ["thumbnails"; "high"; "url"] in
   Ok {| Title := title; Views := views; Likes := likes;
         Comments := comments; Thumbnail := url |}).
Proof.
  intros Hst Hsn. unfold video_record. simpl. rewrite Hst, Hsn. simpl.
  destruct (getitem snippet "title"); simpl; [done|].
  destruct (counter E stats "viewCount"); simpl; [done|].
  destruct (counter E stats "likeCount"); simpl; [done|].
  destruct (counter E stats "commentCount"); simpl; [done|].
  destruct (getitem snippet "thumbnails") as [|th]; simpl; [done|].
  destruct (getitem th "high") as [|hi]; simpl; [done|].
  by destruct (getitem hi "url").
Qed.

Lemma counter_absent (stats : gmap string json) (name : string) :
  stats !! name = None → counter E (JDict stats) name = Ok 0.
Proof. intros H. unfold counter. simpl. by rewrite H. Qed.

Lemma counter_present (stats : gmap string json) (name : string) (v : json) :
  stats !! name = Some v → counter E (JDict stats) name = int (int_unicode E) v.
Proof. intros H. unfold counter. simpl. by rewrite H. Qed.

Lemma getitem_Ok_inv (v : json) (k : string) (x : json) :
  getitem v k = Ok x → ∃ d : gmap string json, v = JDict d ∧ d !! k = Some x.
Proof.
  destruct v as [| | | | | |d]; simpl; try discriminate.
  destruct (d !! k) as [y|] eqn:Hk; [|discriminate].
  intros [= <-]. by exists d.
Qed.

Lemma counter_Ok_inv (stats : json) (name : string) (n : Z) :
  counter E stats name = Ok n → ∃ d : gmap string json, stats = JDict d.
Proof.
  unfold counter. destruct stats as [| | | | | |d]; simpl; try discriminate.
  intros _. by exists d.
Qed.

Lemma counter_reads_iff (stats : gmap string json) (name : string) (n : Z) :
  counter E (JDict stats) name = Ok n ↔ counter_reads E stats name n.
Proof.
  unfold counter, counter_reads. simpl. destruct (stats !! name) as [v|]; simpl; [done|].
  split; [by intros [= <-] | by intros ->].
Qed.

(** The loop body succeeds exactly on the items that read as a record. *)
Lemma video_record_reads (video : json) (r : VideoRecord) :
  video_record E video = Ok r ↔ item_reads E video r.
Proof.
  split.
  - unfold video_record. intros H.
    destruct (getitem video "statistics") as [|stats] eqn:Hst; [discriminate|].
    cbn [rbind] in H.
    destruct (getitem video "snippet") as [|snippet] eqn:Hsn; [discriminate|].
    cbn [rbind] in H.
    destruct (getitem snippet "title") as [|title] eqn:Htitle; [discriminate|].
    cbn [rbind] in H.
    destruct (counter E stats "viewCount") as [|views] eqn:Hv; [discriminate|].
    cbn [rbind] in H.
    destruct (counter E stats "likeCount") as [|likes] eqn:Hl; [discriminate|].
    cbn [rbind] in H.
    destruct (counter E stats "commentCount") as [|comments] eqn:Hc; [discriminate|].
    cbn [rbind] in H.
    destruct (getitem snippet "thumbnails") as [|th] eqn:Hth; [discriminate|].
    cbn [rbind] in H.
    destruct (getitem th "high") as [|hi] eqn:Hhi; [discriminate|].
    cbn [rbind] in H.
    destruct (getitem hi "url") as [|url] eqn:Hurl; [discriminate|].
    cbn [rbind] in H. injection H as <-.
    apply getitem_Ok_inv in Hst as (item & -> & Hst).
    apply getitem_Ok_inv in Hsn as (item' & [= <-] & Hsn).
    apply getitem_Ok_inv in Htitle as (snip & -> & Htitle).
    destruct (counter_Ok_inv _ _ _ Hv) as [st ->].
    apply getitem_Ok_inv in Hth as (snip' & [= <-] & Hth).
    apply getitem_Ok_inv in Hhi as (thumbs & -> & Hhi).
    apply getitem_Ok_inv in Hurl as (high & -> & Hurl).
    exists item, st, snip, thumbs, high. simpl.
    rewrite <- !counter_reads_iff. done.
  - intros (item & stats & snippet & th & hi & -> & Hst & Hsn & Htitle
            & Hv & Hl & Hc & Hth & Hhi & Hurl).
    apply counter_reads_iff in Hv, Hl, Hc.
    rewrite (video_record_blocks item _ _ Hst Hsn), Hv, Hl, Hc. simpl.
    rewrite Htitle, Hth. simpl. rewrite Hhi. simpl. rewrite Hurl. simpl.
    by destruct r.
Qed.

(** The thumbnail path has no fallback: the first missing key is reported. *)
Lemma thumbnail_missing (snippet th : gmap string json) :
  snippet !! "thumbnails" = Some (JDict th) →
  th !! "high" = None ∨
    (∃ hi : gmap string json, th !! "high" = Some (JDict hi) ∧ hi !! "url" = None) →
  getpath (JDict snippet) ["thumbnails"; "high"; "url"] =
  Raise (KeyError (JStr (match th !! "high" with Some _ => "url" | None => "high" end))).
Proof.
  intros Hth [Hhigh | (hi & Hhigh & Hurl)]; simpl; rewrite Hth; simpl; rewrite Hhigh; simpl.
  - done.
  - by rewrite Hurl.
Qed.

End Record_facts.

Section Detail_claims.

Variable E : env.

(** C1, as stated, fails: on an empty list of identifiers the fetcher
    still sends its batch request (with an empty [id] parameter); the
    source has no guard for the empty case. *)
Lemma empty_input_still_calls_upstream :
  get_video_details Sample.no_uploads [] [] =
    (Ok [], [Youtube (VideosList "snippet,statistics" "")]) ∧
  ¬ ((get_video_details Sample.no_uploads [] []).1 = Ok [] ∧
     network_calls (get_video_details Sample.no_uploads [] []).2 = []).
Proof.
  split; [by vm_compute|].
  intros [_ H]. vm_compute in H. discriminate.
Qed.

(** C1, amended: for an empty input sequence [get_video_details] issues
    exactly one videos-list request, whose [id] parameter is the empty
    string, and it returns an empty record set whenever the response to that
    request carries an empty [items] list. *)
Theorem get_video_details_empty_input (t : list effect) :
  (get_video_details E [] t).2 = (t ++ [Youtube (VideosList "snippet,statistics" "")])%list ∧
  ∀ d : gmap string json,
    execute E (VideosList "snippet,statistics" "") = Ok (JDict d) →
    d !! "items" = Some (JList []) →
    (get_video_details E [] t).1 = Ok [].
Proof.
  rewrite (get_video_details_run E [] "" t eq_refl). split; [done|].
  intros d Hresp Hitems. unfold videos_request. simpl. rewrite Hresp. simpl.
  by rewrite Hitems.
Qed.

(** C2: for every item of the batch answer, the record produced for it has
    0 for each of the three counters that the item's statistics block lacks:
    an absent counter is never an error (the fetch succeeds whenever every
    item has its two blocks, a title and a thumbnail address, and the
    counters that are present convert) and never negative, while the title
    and the counters that are present are [int()] of what the item holds.
    The fetch returns records exactly when they read off the items this way,
    one per item and in order. *)
Theorem absent_counter_resolves_to_zero
    (video_ids : list json) (id : string) (t : list effect)
    (d : gmap string json) (items : list json) :
  join "," video_ids = Ok id →
  execute E (VideosList "snippet,statistics" id) = Ok (JDict d) →
  d !! "items" = Some (JList items) →
  (∀ records : list VideoRecord,
     Forall2 (item_reads E) items records →
     get_video_details E video_ids t =
       (Ok records, (t ++ [Youtube (VideosList "snippet,statistics" id)])%list)) ∧
  (∀ records : list VideoRecord,
     (get_video_details E video_ids t).1 = Ok records →
     Forall2 (item_reads E) items records ∧
     ∀ (i : nat) (item stats : gmap string json) (r : VideoRecord),
       items !! i = Some (JDict item) →
       records !! i = Some r →
       item !! "statistics" = Some (JDict stats) →
       (stats !! "viewCount" = None → Views r = 0) ∧
       (stats !! "likeCount" = None → Likes r = 0) ∧
       (stats !! "commentCount" = None → Comments r = 0) ∧
       (∀ v, stats !! "viewCount" = Some v → int (int_unicode E) v = Ok (Views r)) ∧
       (∀ v, stats !! "likeCount" = Some v → int (int_unicode E) v = Ok (Likes r)) ∧
       (∀ v, stats !! "commentCount" = Some v → int (int_unicode E) v = Ok (Comments r))) ∧
  (∀ (stats : gmap string json) (name : string),
     stats !! name = None → counter E (JDict stats) name = Ok 0) ∧
  (∀ (stats : gmap string json) (name : string) (v : json),
     stats !! name = Some v → counter E (JDict stats) name = int (int_unicode E) v).
Proof.
  intros Hid Hresp Hitems.
  rewrite (get_video_details_run E video_ids id t Hid).
  unfold videos_request. rewrite Hresp. simpl. rewrite Hitems. simpl.
  split; [|split; [|split; [exact (counter_absent E) | exact (counter_present E)]]].
  - intros records Hreads. f_equal. apply for_append_Ok. exists records.
    split; [|done]. eapply Forall2_impl; [exact Hreads|].
    intros item r. apply video_record_reads.
  - intros records Hrun. apply for_append_Ok in Hrun as (ys & Hys & ->). simpl.
    assert (Forall2 (item_reads E) items ys) as Hreads.
    { eapply Forall2_impl; [exact Hys|]. intros item r. apply video_record_reads. }
    split; [exact Hreads|].
    intros i item stats r Hitem Hr Hstats.
    destruct (Forall2_lookup_lr _ _ _ _ _ _ Hreads Hitem Hr)
      as (item' & stats' & snippet & th & hi & [= <-] & Hst & _ & _ & Hv & Hl & Hc & _).
    rewrite Hstats in Hst. injection Hst as <-.
    unfold counter_reads in Hv, Hl, Hc.
    repeat split.
    + intros H. by rewrite H in Hv.
    + intros H. by rewrite H in Hl.
    + intros H. by rewrite H in Hc.
    + intros v H. by rewrite H in Hv.
    + intros v H. by rewrite H in Hl.
    + intros v H. by rewrite H in Hc.
Qed.

(** C6: the records come out in the order of the items of the batch
    response, one record per item, whatever the order of the identifiers
    that were asked for. *)
Theorem get_video_details_response_order
    (video_ids : list json) (id : string) (t : list effect)
    (d : gmap string json) (items : list json) :
  join "," video_ids = Ok id →
  execute E (VideosList "snippet,statistics" id) = Ok (JDict d) →
  d !! "items" = Some (JList items) →
  ∀ records : list VideoRecord,
    get_video_details E video_ids t =
      (Ok records, (t ++ [Youtube (VideosList "snippet,statistics" id)])%list)
    ↔ Forall2 (λ item r, video_record E item = Ok r) items records.
Proof.
  intros Hid Hresp Hitems records.
  rewrite (get_video_details_run E video_ids id t Hid).
  unfold videos_request. rewrite Hresp. simpl. rewrite Hitems. simpl.
  split.
  - intros [= H]. apply for_append_Ok in H as (ys & Hys & ->). done.
  - intros H. f_equal. apply for_append_Ok. by exists records.
Qed.

End Detail_claims.

Section Detail_failures.

Variable E : env.

(** An item that makes the loop body raise makes the whole fetch raise,
    after its one request. *)
Lemma get_video_details_item_raises
    (video_ids : list json) (id : string) (t : list effect)
    (d : gmap string json) (items : list json) (item : json) (e : exn) :
  join "," video_ids = Ok id →
  execute E (VideosList "snippet,statistics" id) = Ok (JDict d) →
  d !! "items" = Some (JList items) →
  item ∈ items →
  video_record E item = Raise e →
  ∃ e', get_video_details E video_ids t =
        (Raise e', (t ++ [Youtube (VideosList "snippet,statistics" id)])%list).
Proof.
  intros Hid Hresp Hitems Hin Hraise.
  rewrite (get_video_details_run E video_ids id t Hid).
  unfold videos_request. rewrite Hresp. simpl. rewrite Hitems. simpl.
  destruct (for_append_Raise (video_record E) items [] item e Hin Hraise) as [e' ->].
  by exists e'.
Qed.

(** C7: an item without a [statistics] block, or without a [snippet]
    block, makes the loop body raise [KeyError] on the missing block, and
    the fetch as a whole raises instead of returning records. *)
Theorem missing_block_is_fatal (item : gmap string json) :
  item !! "statistics" = None ∨ item !! "snippet" = None →
  (∃ e, video_record E (JDict item) = Raise e) ∧
  (item !! "statistics" = None →
     video_record E (JDict item) = Raise (KeyError (JStr "statistics"))) ∧
  (is_Some (item !! "statistics") → item !! "snippet" = None →
     video_record E (JDict item) = Raise (KeyError (JStr "snippet"))) ∧
  ∀ (video_ids : list json) (id : string) (t : list effect)
    (d : gmap string json) (items : list json),
    join "," video_ids = Ok id →
    execute E (VideosList "snippet,statistics" id) = Ok (JDict d) →
    d !! "items" = Some (JList items) →
    JDict item ∈ items →
    ∃ e, get_video_details E video_ids t =
         (Raise e, (t ++ [Youtube (VideosList "snippet,statistics" id)])%list).
Proof.
  intros Hmissing.
  assert (item !! "statistics" = None →
          video_record E (JDict item) = Raise (KeyError (JStr "statistics"))) as Hstats.
  { intros H. unfold video_record. simpl. by rewrite H. }
  assert (is_Some (item !! "statistics") → item !! "snippet" = None →
          video_record E (JDict item) = Raise (KeyError (JStr "snippet"))) as Hsnippet.
  { intros [stats Hst] Hsn. unfold video_record. simpl. by rewrite Hst, Hsn. }
  assert (∃ e, video_record E (JDict item) = Raise e) as [e He].
  { destruct (item !! "statistics") as [stats|] eqn:Hst.
    - destruct Hmissing as [? | Hsn]; [done|]. eexists. apply Hsnippet; eauto.
    - eexists. by apply Hstats. }
  split; [by exists e|]. split; [done|]. split; [done|].
  intros video_ids id t d items Hid Hresp Hitems Hin.
  by eapply get_video_details_item_raises.
Qed.

(** C10: an item whose thumbnails mapping has no [high] entry, or whose
    [high] entry has no [url], makes the loop body raise; when the rest of
    the item is in order the exception is the [KeyError] of the missing key.
    The fetch as a whole then raises instead of returning records. *)
Theorem missing_thumbnail_is_fatal (item snippet thumbnails : gmap string json) :
  item !! "snippet" = Some (JDict snippet) →
  snippet !! "thumbnails" = Some (JDict thumbnails) →
  thumbnails !! "high" = None ∨
    (∃ high : gmap string json,
       thumbnails !! "high" = Some (JDict high) ∧ high !! "url" = None) →
  (∃ e, video_record E (JDict item) = Raise e) ∧
  (∀ (stats title : json) (views likes comments : Z),
     item !! "statistics" = Some stats →
     snippet !! "title" = Some title →
     counter E stats "viewCount" = Ok views →
     counter E stats "likeCount" = Ok likes →
     counter E stats "commentCount" = Ok comments →
     video_record E (JDict item) =
       Raise (KeyError (JStr (match thumbnails !! "high" with
                              | Some _ => "url"
                              | None => "high"
                              end)))) ∧
  ∀ (video_ids : list json) (id : string) (t : list effect)
    (d : gmap string json) (items : list json),
    join "," video_ids = Ok id →
    execute E (VideosList "snippet,statistics" id) = Ok (JDict d) →
    d !! "items" = Some (JList items) →
    JDict item ∈ items →
    ∃ e, get_video_details E video_ids t =
         (Raise e, (t ++ [Youtube (VideosList "snippet,statistics" id)])%list).
Proof.
  intros Hsn Hth Hhigh.
  pose proof (thumbnail_missing snippet thumbnails Hth Hhigh) as Hpath.
  assert (∃ e, video_record E (JDict item) = Raise e) as [e He].
  { destruct (item !! "statistics") as [stats|] eqn:Hst.
    - rewrite (video_record_blocks E item _ _ Hst Hsn), Hpath.
      destruct (getitem (JDict snippet) "title"); simpl; [by eexists|].
      destruct (counter E stats "viewCount"); simpl; [by eexists|].
      destruct (counter E stats "likeCount"); simpl; [by eexists|].
      destruct (counter E stats "commentCount"); simpl; by eexists.
    - unfold video_record. simpl. rewrite Hst. by eexists. }
  split; [by exists e|]. split.
  - intros stats title views likes comments Hst Htitle Hv Hl Hc.
    rewrite (video_record_blocks E item _ _ Hst Hsn), Hpath, Hv, Hl, Hc.
    simpl. by rewrite Htitle.
  - intros video_ids id t d items Hid Hresp Hitems Hin.
    by eapply get_video_details_item_raises.
Qed.

End Detail_failures.

(** ** Playlist Enumerator *)

Section Playlist_claims.

Variable E : env.

(** C5, as stated, fails: the bound of 10 is only asked of the upstream
    service ([maxResults=10]); the loop keeps every item of the answer, so
    an answer with 11 items gives 11 identifiers. *)
Lemma oversized_page_gives_eleven_ids :
  (get_video_ids Sample.oversized_page (JStr "UU1") []).1 =
    Ok (JStr <$> Sample.eleven_ids) ∧
  ¬ (∀ ids, (get_video_ids Sample.oversized_page (JStr "UU1") []).1 = Ok ids →
            (length ids ≤ 10)%nat).
Proof.
  assert ((get_video_ids Sample.oversized_page (JStr "UU1") []).1 =
          Ok (JStr <$> Sample.eleven_ids)) as Hrun by (by vm_compute).
  split; [done|].
  intros H. specialize (H _ Hrun). vm_compute in H. lia.
Qed.

(** C5, amended: [get_video_ids] sends one playlist-items request that asks
    for at most 10 results, and returns exactly one identifier per item of
    the response, in order; so it returns at most 10 identifiers whenever
    the response holds at most 10 items. *)
Theorem get_video_ids_one_per_item
    (playlist_id : json) (t : list effect) (d : gmap string json) (items : list json) :
  execute E (PlaylistItemsList "contentDetails" playlist_id 10) = Ok (JDict d) →
  d !! "items" = Some (JList items) →
  (get_video_ids E playlist_id t).2 =
    (t ++ [Youtube (PlaylistItemsList "contentDetails" playlist_id 10)])%list ∧
  (∀ ids, (get_video_ids E playlist_id t).1 = Ok ids ↔
          Forall2 (λ item id, video_id_of item = Ok id) items ids) ∧
  (∀ ids, (get_video_ids E playlist_id t).1 = Ok ids →
          length ids = length items ∧
          ((length items ≤ 10)%nat → (length ids ≤ 10)%nat)).
Proof.
  intros Hresp Hitems. rewrite get_video_ids_run. unfold playlist_request.
  rewrite Hresp. simpl. rewrite Hitems. simpl.
  split; [done|]. split.
  - intros ids. rewrite for_append_Ok. split.
    + by intros (ys & Hys & ->).
    + intros H. by exists ids.
  - intros ids Hids. apply for_append_length in Hids. lia.
Qed.

End Playlist_claims.

(** ** Channel Lookup and the script body *)


Section Channel_claims.

Variable E : env.

(** When the lookup comes back falsy the block only reports it. *)
Lemma main_area_not_found (key : json) (channel_id : string) (t : list effect)
    (channel_info : json) :
  (get_channel_stats E channel_id []).1 = Ok channel_info →
  truthy channel_info = false →
  ∃ added, (main_area E key channel_id t).2 = (t ++ added)%list ∧
           Forall (λ e, is_later_stage e = false) added.
Proof.
  intros Hinfo Hfalsy.
  unfold main_area, try_except, bind, call_sdk, draw, perform.
  destruct (sdk E _) as [e|[]]; simpl.
  { destruct (is_Exception e); simpl.
    - eexists [_; _]. rewrite <- app_assoc. split; [done|]. by repeat constructor.
    - eexists [_]. split; [done|]. by repeat constructor. }
  destruct (render E (st_spinner _)) as [e|[]]; simpl.
  { destruct (is_Exception e); simpl.
    - eexists [_; _; _]. rewrite <- !app_assoc. split; [done|]. by repeat constructor.
    - eexists [_; _]. rewrite <- !app_assoc. split; [done|]. by repeat constructor. }
  rewrite get_channel_stats_run in Hinfo. simpl in Hinfo.
  rewrite get_channel_stats_run. simpl. rewrite Hinfo. unfold Ok. rewrite Hfalsy.
  destruct (render E (st_error _)) as [e|[]]; simpl.
  - destruct (is_Exception e); simpl.
    + eexists [_; _; _; _; _]. rewrite <- !app_assoc. split; [done|]. by repeat constructor.
    + eexists [_; _; _; _]. rewrite <- !app_assoc. split; [done|]. by repeat constructor.
  - eexists [_; _; _; _]. rewrite <- !app_assoc. split; [done|]. by repeat constructor.
Qed.

(** C3: a channels-list response with an empty [items] list makes Channel
    Lookup return [None]; a response with at least one item makes it return
    the first one; and whenever the lookup returns [None] the script body
    performs no request of the Playlist Enumerator, the Video Detail Fetcher
    or the Narrative Summarizer. *)
Theorem channel_not_found_stops_pipeline (channel_id : string) :
  (∀ (t : list effect) (d : gmap string json),
     execute E (ChannelsList "snippet,contentDetails,statistics" channel_id) = Ok (JDict d) →
     d !! "items" = Some (JList []) →
     get_channel_stats E channel_id t =
       (Ok JNull,
        (t ++ [Youtube (ChannelsList "snippet,contentDetails,statistics" channel_id)])%list)) ∧
  (∀ (t : list effect) (d : gmap string json) (first : json) (others : list json),
     execute E (ChannelsList "snippet,contentDetails,statistics" channel_id) = Ok (JDict d) →
     d !! "items" = Some (JList (first :: others)) →
     get_channel_stats E channel_id t =
       (Ok first,
        (t ++ [Youtube (ChannelsList "snippet,contentDetails,statistics" channel_id)])%list)) ∧
  (∀ (key : json) (t : list effect),
     (get_channel_stats E channel_id []).1 = Ok JNull →
     ∃ added, (main_area E key channel_id t).2 = (t ++ added)%list ∧
              Forall (λ e, is_later_stage e = false) added).
Proof.
  split; [|split].
  - intros t d Hresp Hitems. rewrite get_channel_stats_run. unfold channels_request.
    rewrite Hresp. simpl. by rewrite Hitems.
  - intros t d first others Hresp Hitems. rewrite get_channel_stats_run.
    unfold channels_request. rewrite Hresp. simpl. by rewrite Hitems.
  - intros key t Hnone. by eapply main_area_not_found.
Qed.


(** C9, as stated, fails: [None] also comes back from an answer whose
    [items] list is not empty, when its first item is null (the function
    returns the first item as it is). *)
Lemma null_first_item_looks_not_found :
  get_channel_stats Sample.null_first "UC1" [] =
    (Ok JNull, [Youtube (ChannelsList "snippet,contentDetails,statistics" "UC1")]) ∧
  ¬ ((get_channel_stats Sample.null_first "UC1" []).1 = Ok JNull →
     ∃ (d : gmap string json) (v : json),
       execute Sample.null_first
         (ChannelsList "snippet,contentDetails,statistics" "UC1") = Ok (JDict d) ∧
       d !! "items" = Some v ∧
       (v = JList [] ∨ truthy v = false)).
Proof.
  assert (get_channel_stats Sample.null_first "UC1" [] =
          (Ok JNull, [Youtube (ChannelsList "snippet,contentDetails,statistics" "UC1")]))
    as Hrun by (by vm_compute).
  split; [exact Hrun|].
  intros H. destruct H as (d & v & Hresp & Hitems & Hempty); [by rewrite Hrun|].
  injection Hresp as <-. vm_compute in Hitems. injection Hitems as <-.
  destruct Hempty as [Hempty | Hempty]; discriminate.
Qed.

(** C9, amended: a response object without an [items] key makes Channel
    Lookup raise [KeyError], and the script body hands that exception to its
    outer handler instead of reporting "not found".  [None] comes back only
    from a response that has the key, and then its value is falsy (the
    empty list, for a list) or is a list whose first item is itself null,
    returned as the record.  For a list of channel objects, [None] comes
    back exactly when the list is empty. *)
Theorem missing_items_key_raises (channel_id : string) :
  (∀ (t : list effect) (d : gmap string json),
     execute E (ChannelsList "snippet,contentDetails,statistics" channel_id) = Ok (JDict d) →
     d !! "items" = None →
     get_channel_stats E channel_id t =
       (Raise (KeyError (JStr "items")),
        (t ++ [Youtube (ChannelsList "snippet,contentDetails,statistics" channel_id)])%list)) ∧
  (∀ (key : json) (t : list effect) (d : gmap string json),
     execute E (ChannelsList "snippet,contentDetails,statistics" channel_id) = Ok (JDict d) →
     d !! "items" = None →
     sdk E (discovery_build "youtube" "v3" key) = Ok () →
     render E (st_spinner "Fetching Channel Data...") = Ok () →
     main_area E key channel_id t =
       (render E (st_error_exception "Error: " (KeyError (JStr "items"))),
        (t ++ [ Sdk (discovery_build "youtube" "v3" key);
                Streamlit (st_spinner "Fetching Channel Data...");
                Youtube (ChannelsList "snippet,contentDetails,statistics" channel_id);
                Streamlit (st_error_exception "Error: " (KeyError (JStr "items"))) ])%list)) ∧
  (∀ t : list effect,
     (get_channel_stats E channel_id t).1 = Ok JNull →
     ∃ (d : gmap string json) (v : json),
       execute E (ChannelsList "snippet,contentDetails,statistics" channel_id) = Ok (JDict d) ∧
       d !! "items" = Some v ∧
       (truthy v = false ∨ ∃ others, v = JList (JNull :: others))) ∧
  (∀ (t : list effect) (d : gmap string json) (items : list json),
     execute E (ChannelsList "snippet,contentDetails,statistics" channel_id) = Ok (JDict d) →
     d !! "items" = Some (JList items) →
     Forall is_dict items →
     ((get_channel_stats E channel_id t).1 = Ok JNull ↔ items = [])).
Proof.
  split; [|split; [|split]].
  - intros t d Hresp Hitems. rewrite get_channel_stats_run. unfold channels_request.
    rewrite Hresp. simpl. by rewrite Hitems.
  - intros key t d Hresp Hitems Hsdk Hspin.
    unfold main_area, try_except, bind, call_sdk, draw, perform.
    rewrite Hsdk. simpl. rewrite Hspin. simpl.
    rewrite get_channel_stats_run. unfold channels_request.
    rewrite Hresp. simpl. rewrite Hitems. simpl.
    by rewrite <- !app_assoc.
  - intros t. rewrite get_channel_stats_run. unfold channels_request. simpl.
    destruct (execute E _) as [e|response]; simpl; [discriminate|].
    destruct response as [| | | | | |d]; simpl; try discriminate.
    destruct (d !! "items") as [v|] eqn:Hv; simpl; [|discriminate].
    intros Hnone. exists d, v. split; [done|]. split; [done|].
    destruct (truthy v) eqn:Htruthy; [right | by left].
    destruct v as [| | | | s|l|]; simpl in *; try discriminate.
    + destruct s; discriminate.
    + destruct l as [|x l]; [discriminate|].
      injection Hnone as ->. by exists l.
  - intros t d items Hresp Hitems Hdicts. rewrite get_channel_stats_run.
    unfold channels_request. rewrite Hresp. simpl. rewrite Hitems. simpl.
    destruct items as [|x l]; simpl; [done|].
    split; [|discriminate].
    intros [= ->]. by inversion Hdicts.
Qed.

End Channel_claims.

(** ** Start-up *)

Section Startup_claims.

Variable E : env.

Lemma bind_Raise {A B} (m : M A) (k : A → M B) (t t' : list effect) (e : exn) :
  m t = (Raise e, t') → bind m k t = (Raise e, t').
Proof. intros H. unfold bind. by rewrite H. Qed.

Lemma read_secret_absent (secrets : option (gmap string json)) (name : string) :
  secret_absent secrets name → ∃ e, read_secret secrets name = Raise e.
Proof.
  destruct secrets as [store|]; simpl; intros H.
  - rewrite H. by eexists.
  - by eexists.
Qed.

(** With a credential missing, the set-up block is its handler. *)
Lemma load_secrets_absent (secrets : option (gmap string json)) (t : list effect) :
  secret_absent secrets "YOUTUBE_API_KEY" ∨ secret_absent secrets "GEMINI_API_KEY" →
  load_secrets E secrets t = (draw E (st_error secrets_message) ;; stop) t.
Proof.
  intros Habsent. unfold load_secrets, try_except_bare.
  assert (∃ e, (let* YOUTUBE_API_KEY := lift (read_secret secrets "YOUTUBE_API_KEY") in
                let* GEMINI_API_KEY := lift (read_secret secrets "GEMINI_API_KEY") in
                ret (YOUTUBE_API_KEY, GEMINI_API_KEY)) t = (Raise e, t)) as [e ->]; [|done].
  unfold bind, lift, ret.
  destruct Habsent as [H | H]; apply read_secret_absent in H as [e He].
  - rewrite He. by eexists.
  - rewrite He. destruct (read_secret secrets "YOUTUBE_API_KEY"); by eexists.
Qed.

(** C8: when either credential is absent the run ends with an exception,
    and all it has done is Streamlit output: no SDK set-up and no request
    to YouTube or Gemini.  When the error box renders, the exception is the
    one of [st.stop()] and the trace is the error box followed by the stop. *)
Theorem missing_credentials_halt
    (secrets : option (gmap string json))
    (channel_id_input : string) (clicked analyze : bool) (t : list effect) :
  secret_absent secrets "YOUTUBE_API_KEY" ∨ secret_absent secrets "GEMINI_API_KEY" →
  ∃ (e : exn) (added : list effect),
    app E secrets channel_id_input clicked analyze t = (Raise e, (t ++ added)%list) ∧
    Forall (λ x, ∃ w, x = Streamlit w) added ∧
    network_calls added = [] ∧
    (render E (st_error secrets_message) = Ok () →
     e = StopException ∧
     added = [Streamlit (st_error secrets_message); Streamlit st_stop]).
Proof.
  intros Habsent. unfold app.
  pose proof (load_secrets_absent secrets t Habsent) as Hload.
  unfold bind, draw, stop, perform in Hload.
  destruct (render E (st_error secrets_message)) as [e|[]] eqn:Hrender.
  - exists e, [Streamlit (st_error secrets_message)].
    split; [by apply bind_Raise|].
    split; [repeat constructor; by eexists|]. split; [done|]. discriminate.
  - exists StopException, [Streamlit (st_error secrets_message); Streamlit st_stop].
    split; [apply bind_Raise; by rewrite Hload, <- app_assoc|].
    split; [repeat constructor; by eexists|]. done.
Qed.

End Startup_claims.

(** ** Narrative Summarizer *)

Section Summarizer_claims.

Variable E : env.


Lemma select_present (df : DataFrame) (labels : list string) :
  Forall (λ c, c ∈ columns df) labels →
  select df labels =
  Ok {| columns := labels;
        dtypes := column_dtype df <$> labels;
        rows := (λ row, cell (columns df) row <$> labels) <$> rows df |}.
Proof.
  intros Hall. unfold select.
  assert (filter (λ c, c ∉ columns df) labels = []) as ->; [|done].
  induction Hall as [|c labels Hc _ IH]; [done|].
  rewrite filter_cons. destruct (decide (c ∉ columns df)); [done | exact IH].
Qed.

Lemma select_absent (df : DataFrame) (labels : list string) (c : string) :
  c ∈ labels → c ∉ columns df → ∃ e, select df labels = Raise e.
Proof.
  intros Hin Hout. unfold select.
  assert (c ∈ filter (λ c, c ∉ columns df) labels) as Hmissing
    by (by apply list_elem_of_filter).
  destruct (filter _ labels); [by apply elem_of_nil in Hmissing | by eexists].
Qed.

(** With the three columns in place the summarizer makes one request, and
    its prompt is the template around the rendering of the head of the
    selection. *)
Lemma analyze_with_gemini_run (df : DataFrame) (t : list effect) :
  Forall (λ c, c ∈ columns df) summary_columns →
  let prompt :=
    prompt_of (to_string E
      {| columns := summary_columns;
         dtypes := column_dtype df <$> summary_columns;
         rows := (λ row, cell (columns df) row <$> summary_columns) <$> take 5 (rows df) |}) in
  analyze_with_gemini E df t =
  (generate_content E "gemini-2.5-flash" prompt,
   (t ++ [Gemini "gemini-2.5-flash" prompt])%list).
Proof.
  intros Hcols. simpl.
  unfold analyze_with_gemini, bind, lift, call_generate, perform.
  fold summary_columns. rewrite (select_present df summary_columns Hcols). simpl.
  unfold head. simpl. by rewrite fmap_take.
Qed.

(** C4, as stated, fails on the empty record set: the frame built from an
    empty list has no columns, so selecting the three columns raises
    [KeyError] and no prompt is sent at all. *)
Lemma empty_record_set_gets_no_prompt :
  analyze_with_gemini Sample.no_uploads (pd_DataFrame Sample.no_uploads []) [] =
    (Raise (KeyError (JList [JStr "Title"; JStr "Views"; JStr "Likes"])), []) ∧
  ¬ (∃ model prompt,
       Gemini model prompt ∈ (analyze_with_gemini Sample.no_uploads (pd_DataFrame Sample.no_uploads []) []).2).
Proof.
  assert (analyze_with_gemini Sample.no_uploads (pd_DataFrame Sample.no_uploads []) [] =
          (Raise (KeyError (JList [JStr "Title"; JStr "Views"; JStr "Likes"])), []))
    as Hrun by (by vm_compute).
  split; [done|]. rewrite Hrun. simpl.
  intros (model & prompt & Hin). by apply elem_of_nil in Hin.
Qed.

(** C4, amended: for every frame that has the [Title], [Views] and [Likes]
    columns, and so for every non-empty record set, the one prompt that is
    sent wraps the rendering of a table with exactly those three columns and
    exactly the first 5 rows (all of them when there are fewer), in the
    order they have in the input.  (The table keeps the dtypes that pandas
    gave the three columns when the frame was built.) *)
Theorem prompt_embeds_first_five :
  (∀ (df : DataFrame) (t : list effect),
     Forall (λ c, c ∈ columns df) ["Title"; "Views"; "Likes"] →
     let prompt :=
       prompt_of (to_string E
         {| columns := ["Title"; "Views"; "Likes"];
            dtypes := column_dtype df <$> ["Title"; "Views"; "Likes"];
            rows := (λ row, cell (columns df) row <$> ["Title"; "Views"; "Likes"])
                      <$> take 5 (rows df) |}) in
     analyze_with_gemini E df t =
       (generate_content E "gemini-2.5-flash" prompt,
        (t ++ [Gemini "gemini-2.5-flash" prompt])%list)) ∧
  (∀ (records : list VideoRecord) (t : list effect),
     records ≠ [] →
     let prompt :=
       prompt_of (to_string E
         {| columns := ["Title"; "Views"; "Likes"];
            dtypes := summary_dtypes E records;
            rows := summary_row <$> take 5 records |}) in
     analyze_with_gemini E (pd_DataFrame E records) t =
       (generate_content E "gemini-2.5-flash" prompt,
        (t ++ [Gemini "gemini-2.5-flash" prompt])%list)).
Proof.
  split.
  - intros df t Hcols. by apply analyze_with_gemini_run.
  - intros records t Hne.
    destruct records as [|r records]; [done|].
    assert (Forall (λ c, c ∈ columns (pd_DataFrame E (r :: records))) summary_columns)
      as Hcols.
    { simpl. unfold summary_columns, record_columns. repeat constructor; set_solver. }
    rewrite (analyze_with_gemini_run _ t Hcols).
    cbv zeta. fold summary_columns.
    replace (column_dtype (pd_DataFrame E (r :: records)) <$> summary_columns)
      with (summary_dtypes E (r :: records)) by done.
    replace (rows (pd_DataFrame E (r :: records))) with (row_of <$> (r :: records)) by done.
    replace (columns (pd_DataFrame E (r :: records))) with record_columns by done.
    rewrite <- fmap_take, <- list_fmap_compose.
    do 4 f_equal.
Qed.

End Summarizer_claims.

(** ** The claims on the sample worlds *)

(** A channel without uploads: the empty batch request is sent, and its
    empty answer gives no record. *)
Lemma get_video_details_empty_input_witness :
  (get_video_details Sample.no_uploads [] []).2 =
    [Youtube (VideosList "snippet,statistics" "")] ∧
  (get_video_details Sample.no_uploads [] []).1 = Ok [].
Proof.
  destruct (get_video_details_empty_input Sample.no_uploads []) as [Htrace Hempty].
  split; [exact Htrace|].
  apply (Hempty (list_to_map [("items", JList [])])).
  - reflexivity.
  - vm_compute. reflexivity.
Defined.

(** A batch answer whose first video has comments disabled: the fetch
    succeeds, and that video's record has [Comments] 0 with the rest read
    from the item. *)
Lemma absent_counter_resolves_to_zero_witness :
  get_video_details Sample.two_uploads [JStr "a"; JStr "b"] [] =
    (Ok [ {| Title := JStr "b"; Views := 20; Likes := 3; Comments := 0;
             Thumbnail := JStr "https://img/b" |};
          {| Title := JStr "a"; Views := 100; Likes := 10; Comments := 4;
             Thumbnail := JStr "https://img/a" |} ],
     [Youtube (VideosList "snippet,statistics" "a,b")]) ∧
  ∀ r, Sample.two_records !! 0%nat = Some r → Comments r = 0.
Proof.
  destruct (absent_counter_resolves_to_zero Sample.two_uploads
              [JStr "a"; JStr "b"] "a,b" []
              (list_to_map
                 [("items",
                   JList [ Sample.video "b" [("viewCount", JStr "20"); ("likeCount", JStr "3")];
                           Sample.video "a" [("viewCount", JStr "100");
                                             ("likeCount", JStr "10");
                                             ("commentCount", JStr "4")] ])])
              [ Sample.video "b" [("viewCount", JStr "20"); ("likeCount", JStr "3")];
                Sample.video "a" [("viewCount", JStr "100"); ("likeCount", JStr "10");
                                  ("commentCount", JStr "4")] ])
    as (Hfetch & Hread & _).
  - reflexivity.
  - reflexivity.
  - vm_compute. reflexivity.
  - assert (get_video_details Sample.two_uploads [JStr "a"; JStr "b"] [] =
            (Ok Sample.two_records, [Youtube (VideosList "snippet,statistics" "a,b")]))
      as Hrun.
    { apply Hfetch.
      repeat (constructor; [apply video_record_reads; vm_compute; reflexivity|]).
      constructor. }
    split; [exact Hrun|].
    intros r Hr.
    refine (proj1 (proj2 (proj2
      (proj2 (Hread Sample.two_records _) 0%nat _
         (list_to_map [("viewCount", JStr "20"); ("likeCount", JStr "3")]) r _ Hr _))) _).
    + by rewrite Hrun.
    + reflexivity.
    + vm_compute. reflexivity.
    + vm_compute. reflexivity.
Defined.

(** Identifiers asked as a, b; answered as b, a; records come out as b, a. *)
Lemma get_video_details_response_order_witness :
  get_video_details Sample.two_uploads [JStr "a"; JStr "b"] [] =
    (Ok [ {| Title := JStr "b"; Views := 20; Likes := 3; Comments := 0;
             Thumbnail := JStr "https://img/b" |};
          {| Title := JStr "a"; Views := 100; Likes := 10; Comments := 4;
             Thumbnail := JStr "https://img/a" |} ],
     [Youtube (VideosList "snippet,statistics" "a,b")]).
Proof.
  refine (proj2 (get_video_details_response_order Sample.two_uploads
            [JStr "a"; JStr "b"] "a,b" []
            (list_to_map
               [("items",
                 JList [ Sample.video "b" [("viewCount", JStr "20"); ("likeCount", JStr "3")];
                         Sample.video "a" [("viewCount", JStr "100"); ("likeCount", JStr "10");
                                           ("commentCount", JStr "4")] ])])
            _ _ _ _ _) _).
  - reflexivity.
  - reflexivity.
  - vm_compute. reflexivity.
  - repeat (constructor; [vm_compute; reflexivity|]). constructor.
Defined.

(** An unknown channel stops the run after the lookup; a known one is
    returned as received. *)
Lemma channel_not_found_stops_pipeline_witness :
  get_channel_stats Sample.no_channel "UC1" [] =
    (Ok JNull, [Youtube (ChannelsList "snippet,contentDetails,statistics" "UC1")]) ∧
  get_channel_stats Sample.two_uploads "UC1" [] =
    (Ok Sample.channel, [Youtube (ChannelsList "snippet,contentDetails,statistics" "UC1")]) ∧
  ∃ added, (main_area Sample.no_channel (JStr "k1") "UC1" []).2 = added ∧
           Forall (λ e, is_later_stage e = false) added.
Proof.
  destruct (channel_not_found_stops_pipeline Sample.no_channel "UC1")
    as (Hempty & _ & Hstop).
  destruct (channel_not_found_stops_pipeline Sample.two_uploads "UC1")
    as (_ & Hfirst & _).
  split; [|split].
  - apply (Hempty [] (list_to_map [("items", JList [])])).
    + reflexivity.
    + vm_compute. reflexivity.
  - apply (Hfirst [] (list_to_map [("items", JList [Sample.channel])]) Sample.channel []).
    + reflexivity.
    + vm_compute. reflexivity.
  - apply (Hstop (JStr "k1") []). vm_compute. reflexivity.
Defined.

(** Six records, the best one last: the prompt shows the first five. *)
Lemma prompt_embeds_first_five_witness :
  analyze_with_gemini Sample.two_uploads (pd_DataFrame Sample.two_uploads Sample.six_records) [] =
    (Ok "Great channel!",
     [Gemini "gemini-2.5-flash"
        (prompt_of (Sample.show_frame
           {| columns := ["Title"; "Views"; "Likes"];
              dtypes := ["object"; "int64"; "int64"];
              rows := [ [JStr "r1"; JInt 10; JInt 1];
                        [JStr "r2"; JInt 20; JInt 2];
                        [JStr "r3"; JInt 30; JInt 3];
                        [JStr "r4"; JInt 40; JInt 4];
                        [JStr "r5"; JInt 50; JInt 5] ] |}))]).
Proof.
  apply (proj2 (prompt_embeds_first_five Sample.two_uploads) Sample.six_records []).
  vm_compute. discriminate.
Defined.

(** Two playlist items give their two identifiers. *)
Lemma get_video_ids_one_per_item_witness :
  get_video_ids Sample.two_uploads (JStr "UU1") [] =
    (Ok [JStr "a"; JStr "b"],
     [Youtube (PlaylistItemsList "contentDetails" (JStr "UU1") 10)]) ∧
  (length [JStr "a"; JStr "b"] ≤ 10)%nat.
Proof.
  destruct (get_video_ids_one_per_item Sample.two_uploads (JStr "UU1") []
              (list_to_map [("items", JList [Sample.playlist_item "a";
                                             Sample.playlist_item "b"])])
              [Sample.playlist_item "a"; Sample.playlist_item "b"])
    as (Htrace & Hids & Hbound).
  - reflexivity.
  - vm_compute. reflexivity.
  - assert ((get_video_ids Sample.two_uploads (JStr "UU1") []).1 =
            Ok [JStr "a"; JStr "b"]) as Hrun.
    { apply Hids. repeat (constructor; [vm_compute; reflexivity|]). constructor. }
    split.
    + simpl in Htrace.
      destruct (get_video_ids Sample.two_uploads (JStr "UU1") []) as [r tr].
      simpl in Htrace, Hrun. rewrite Htrace, Hrun. reflexivity.
    + apply (Hbound _ Hrun). vm_compute. lia.
Defined.

(** A batch whose second item has no [statistics] block. *)
Lemma missing_block_is_fatal_witness :
  video_record (Sample.batch_with (JDict Sample.without_statistics))
      (JDict Sample.without_statistics) = Raise (KeyError (JStr "statistics")) ∧
  ∃ e, get_video_details (Sample.batch_with (JDict Sample.without_statistics))
         [JStr "a"; JStr "c"] [] =
       (Raise e, [Youtube (VideosList "snippet,statistics" "a,c")]).
Proof.
  assert (Sample.without_statistics !! "statistics" = None) as Hmissing
    by (vm_compute; reflexivity).
  destruct (missing_block_is_fatal
              (Sample.batch_with (JDict Sample.without_statistics))
              Sample.without_statistics (or_introl Hmissing))
    as (_ & Hstats & _ & Hfetch).
  split; [exact (Hstats Hmissing)|].
  apply (Hfetch [JStr "a"; JStr "c"] "a,c" []
           (list_to_map [("items", JList [ Sample.video "a" [("viewCount", JStr "100")];
                                           JDict Sample.without_statistics ])])
           [ Sample.video "a" [("viewCount", JStr "100")];
             JDict Sample.without_statistics ]).
  - reflexivity.
  - reflexivity.
  - vm_compute. reflexivity.
  - apply list_elem_of_further, list_elem_of_here.
Defined.

(** Only the YouTube key is in the store. *)
Lemma missing_credentials_halt_witness :
  app Sample.two_uploads Sample.keys_without_gemini "UC1" true false [] =
    (Raise StopException,
     [Streamlit (st_error secrets_message); Streamlit st_stop]).
Proof.
  assert (secret_absent Sample.keys_without_gemini "GEMINI_API_KEY") as Habsent
    by (vm_compute; reflexivity).
  destruct (missing_credentials_halt Sample.two_uploads Sample.keys_without_gemini
              "UC1" true false [] (or_intror Habsent))
    as (e & added & Hrun & _ & _ & Hshown).
  destruct (Hshown eq_refl) as [-> ->]. exact Hrun.
Defined.

(** An answer that is an empty object. *)
Lemma missing_items_key_raises_witness :
  get_channel_stats Sample.bare_answer "UC1" [] =
    (Raise (KeyError (JStr "items")),
     [Youtube (ChannelsList "snippet,contentDetails,statistics" "UC1")]) ∧
  main_area Sample.bare_answer (JStr "k1") "UC1" [] =
    (Ok (),
     [ Sdk (discovery_build "youtube" "v3" (JStr "k1"));
       Streamlit (st_spinner "Fetching Channel Data...");
       Youtube (ChannelsList "snippet,contentDetails,statistics" "UC1");
       Streamlit (st_error_exception "Error: " (KeyError (JStr "items"))) ]).
Proof.
  destruct (missing_items_key_raises Sample.bare_answer "UC1") as (Hraise & Hhandler & _).
  split.
  - apply (Hraise [] ∅); reflexivity.
  - apply (Hhandler (JStr "k1") [] ∅); reflexivity.
Defined.

(** A batch whose second item only has a default-resolution thumbnail. *)
Lemma missing_thumbnail_is_fatal_witness :
  video_record (Sample.batch_with (JDict Sample.without_high_thumbnail))
      (JDict Sample.without_high_thumbnail) = Raise (KeyError (JStr "high")) ∧
  ∃ e, get_video_details (Sample.batch_with (JDict Sample.without_high_thumbnail))
         [JStr "a"; JStr "c"] [] =
       (Raise e, [Youtube (VideosList "snippet,statistics" "a,c")]).
Proof.
  destruct (missing_thumbnail_is_fatal
              (Sample.batch_with (JDict Sample.without_high_thumbnail))
              Sample.without_high_thumbnail Sample.low_res_snippet
              Sample.low_res_thumbnails)
    as (_ & Hkey & Hfetch).
  - vm_compute. reflexivity.
  - vm_compute. reflexivity.
  - left. vm_compute. reflexivity.
  - split.
    + apply (Hkey (Sample.obj [("viewCount", JStr "7")]) (JStr "c") 7 0 0);
        vm_compute; reflexivity.
    + apply (Hfetch [JStr "a"; JStr "c"] "a,c" []
               (list_to_map [("items", JList [ Sample.video "a" [("viewCount", JStr "100")];
                                               JDict Sample.without_high_thumbnail ])])
               [ Sample.video "a" [("viewCount", JStr "100")];
                 JDict Sample.without_high_thumbnail ]).
      * reflexivity.
      * reflexivity.
      * vm_compute. reflexivity.
      * apply list_elem_of_further, list_elem_of_here.
Defined.

(** ** Beyond the stated claims: what raises, and what is caught *)

Section Catchable.

Variable E : env.

Lemma catchable_Ok {A} (a : A) : catchable (Ok a).
Proof. intros e. discriminate. Qed.

Lemma catchable_rbind {A B} (r : result A) (k : A → result B) :
  catchable r → (∀ a, catchable (k a)) → catchable (rbind r k).
Proof.
  intros Hr Hk. destruct r as [e|a]; simpl; [|apply Hk].
  intros e' [= <-]. by apply Hr.
Qed.

Lemma catchable_getitem (v : json) (k : string) : catchable (getitem v k).
Proof.
  intros e. destruct v; simpl; try (by intros [= <-]).
  destruct (_ !! k); [discriminate | by intros [= <-]].
Qed.

Lemma catchable_getitem0 (v : json) : catchable (getitem0 v).
Proof.
  intros e. destruct v as [| | | |s|l|d]; simpl; try (by intros [= <-]).
  - destruct s; [by intros [= <-] | discriminate].
  - destruct l; [by intros [= <-] | discriminate].
Qed.

Lemma catchable_get (v : json) (k : string) (default : json) :
  catchable (get v k default).
Proof.
  intros e. destruct v; simpl; try (by intros [= <-]).
  destruct (_ !! k); discriminate.
Qed.

Lemma catchable_iter (v : json) : catchable (iter v).
Proof. intros e. destruct v; simpl; try (by intros [= <-]); discriminate. Qed.

Lemma catchable_int (unicode_int : string → option Z) (v : json) :
  catchable (int unicode_int v).
Proof.
  intros e. destruct v as [| | |f|s| |]; simpl; try (by intros [= <-]); try discriminate.
  - destruct f; simpl; [discriminate | by intros [= <-] | by intros [= <-]].
  - unfold int_of_string. destruct (if forallb _ _ then _ else _);
      [discriminate | by intros [= <-]].
Qed.

Lemma catchable_getpath (ks : list string) (v : json) : catchable (getpath v ks).
Proof.
  revert v. induction ks as [|k ks IH]; intros v; simpl.
  - apply catchable_Ok.
  - apply catchable_rbind; [apply catchable_getitem | auto].
Qed.

Lemma catchable_join (sep : string) (xs : list json) : catchable (join sep xs).
Proof.
  induction xs as [|x xs IH]; simpl; [apply catchable_Ok|].
  destruct x; try (by intros e [= <-]).
  destruct xs as [|y ys]; [apply catchable_Ok|].
  apply catchable_rbind; [exact IH | intros; apply catchable_Ok].
Qed.

Lemma catchable_for_append {A B} (f : A → result B) (xs : list A) (acc : list B) :
  (∀ x, catchable (f x)) → catchable (for_append f xs acc).
Proof.
  intros Hf. revert acc. induction xs as [|x xs IH]; intros acc; simpl.
  - apply catchable_Ok.
  - apply catchable_rbind; [apply Hf | auto].
Qed.

Lemma catchable_video_id_of (item : json) : catchable (video_id_of item).
Proof.
  unfold video_id_of. apply catchable_rbind; [apply catchable_getitem|].
  intros; apply catchable_getitem.
Qed.

Lemma catchable_counter (stats : json) (name : string) : catchable (counter E stats name).
Proof.
  unfold counter. apply catchable_rbind; [apply catchable_get|].
  intros; apply catchable_int.
Qed.

Lemma catchable_video_record (video : json) : catchable (video_record E video).
Proof.
  unfold video_record.
  repeat (apply catchable_rbind;
          [first [apply catchable_getitem | apply catchable_counter] | intros]).
  apply catchable_Ok.
Qed.

Lemma catchable_select (df : DataFrame) (labels : list string) :
  catchable (select df labels).
Proof.
  unfold select. destruct (filter _ labels); [apply catchable_Ok|].
  by intros e [= <-].
Qed.

End Catchable.

Section Outcomes.

Variable E : env.

(** What each stage leaves in the trace, whatever the answers are. *)
Lemma get_channel_stats_outcome (channel_id : string) (t : list effect) :
  ∃ r, get_channel_stats E channel_id t =
         (r, (t ++ [Youtube (channels_request channel_id)])%list) ∧
       ((∀ q, catchable (execute E q)) → catchable r).
Proof.
  rewrite get_channel_stats_run. eexists. split; [done|]. intros Hex.
  apply catchable_rbind; [apply Hex | intros response].
  apply catchable_rbind; [apply catchable_getitem | intros items].
  destruct (truthy items); [apply catchable_getitem0 | apply catchable_Ok].
Qed.

Lemma get_video_ids_outcome (playlist_id : json) (t : list effect) :
  ∃ r, get_video_ids E playlist_id t =
         (r, (t ++ [Youtube (playlist_request playlist_id)])%list) ∧
       ((∀ q, catchable (execute E q)) → catchable r).
Proof.
  rewrite get_video_ids_run. eexists. split; [done|]. intros Hex.
  apply catchable_rbind; [apply Hex | intros response].
  apply catchable_rbind; [apply catchable_getitem | intros items].
  apply catchable_rbind; [apply catchable_iter | intros l].
  apply catchable_for_append, catchable_video_id_of.
Qed.

Lemma get_video_details_outcome (video_ids : list json) (t : list effect) :
  ∃ r added, get_video_details E video_ids t = (r, (t ++ added)%list) ∧
    (added = [] ∨ ∃ id, join "," video_ids = Ok id ∧
                        added = [Youtube (videos_request id)]) ∧
    ((∀ q, catchable (execute E q)) → catchable r).
Proof.
  destruct (join "," video_ids) as [e|id] eqn:Hid.
  - rewrite (get_video_details_bad_ids E video_ids e t Hid).
    exists (Raise e), []. rewrite app_nil_r. split; [done|]. split; [by left|].
    intros _ e' [= <-]. by apply (catchable_join "," video_ids).
  - rewrite (get_video_details_run E video_ids id t Hid).
    eexists _, _. split; [done|]. split; [right; by exists id|]. intros Hex.
    apply catchable_rbind; [apply Hex | intros response].
    apply catchable_rbind; [apply catchable_getitem | intros items].
    apply catchable_rbind; [apply catchable_iter | intros l].
    apply catchable_for_append, catchable_video_record.
Qed.

Lemma analyze_with_gemini_outcome (df : DataFrame) (t : list effect) :
  ∃ r added, analyze_with_gemini E df t = (r, (t ++ added)%list) ∧
    (added = [] ∨ ∃ prompt, added = [Gemini "gemini-2.5-flash" prompt]) ∧
    ((∀ m p, catchable (generate_content E m p)) → catchable r).
Proof.
  unfold analyze_with_gemini, bind, lift, call_generate, perform.
  destruct (select df _) as [e|selected] eqn:Hsel; simpl.
  - exists (Raise e), []. rewrite app_nil_r. split; [done|]. split; [by left|].
    intros _ e' [= <-]. by apply (catchable_select df ["Title"; "Views"; "Likes"]).
  - eexists _, _. split; [done|]. split; [right; by eexists|]. intros Hgen. apply Hgen.
Qed.

End Outcomes.

(** ** The order of the stages *)

Section Staging.

Variable E : env.

Lemma through_within {A} (S : list nat) (m : M A) : through E S m → within E S m.
Proof.
  intros H t. destruct (H t) as (r & added & Hrun & Hpre & _ & Hcatch).
  by exists r, added.
Qed.

Lemma within_weaken {A} (S S' : list nat) (m : M A) :
  S `prefix_of` S' → within E S m → within E S' m.
Proof.
  intros HS H t. destruct (H t) as (r & added & Hrun & Hpre & Hcatch).
  exists r, added. split; [done|]. split; [by etrans | done].
Qed.

Lemma through_ret {A} (a : A) : through E [] (ret a).
Proof.
  intros t. exists (Ok a), []. rewrite app_nil_r.
  split; [done|]. split; [done|]. split; [done|]. intros _. apply catchable_Ok.
Qed.

Lemma through_lift {A} (r : result A) : catchable r → through E [] (lift r).
Proof.
  intros Hr t. exists r, []. rewrite app_nil_r. by repeat split.
Qed.

Lemma through_draw (w : widget) : through E [] (draw E w).
Proof.
  intros t. exists (render E w), [Streamlit w].
  split; [done|]. split; [done|]. split; [done|]. intros (_ & _ & _ & H). apply H.
Qed.

Lemma through_call_sdk (c : sdk_call) : through E [] (call_sdk E c).
Proof.
  intros t. exists (sdk E c), [Sdk c].
  split; [done|]. split; [done|]. split; [done|]. intros (H & _). apply H.
Qed.

Lemma through_bind {A B} (S1 S2 : list nat) (m : M A) (k : A → M B) :
  through E S1 m → (∀ a, through E S2 (k a)) → through E (S1 ++ S2) (bind m k).
Proof.
  intros Hm Hk t. unfold bind.
  destruct (Hm t) as (r1 & a1 & -> & Hpre1 & Hall1 & Hcatch1).
  destruct r1 as [e|a].
  - exists (Raise e), a1. split; [done|]. split; [by apply prefix_app_r|].
    split; [discriminate|]. intros Ht e' [= <-]. by apply (Hcatch1 Ht e).
  - destruct (Hk a (t ++ a1)%list) as (r2 & a2 & -> & Hpre2 & Hall2 & Hcatch2).
    exists r2, (a1 ++ a2)%list. rewrite app_assoc. split; [done|].
    unfold stages in *. rewrite omap_app, (Hall1 a eq_refl).
    split; [by apply prefix_app|]. split; [|done].
    intros b Hb. by rewrite (Hall2 b Hb).
Qed.

Lemma within_bind {A B} (S1 S2 : list nat) (m : M A) (k : A → M B) :
  through E S1 m → (∀ a, within E S2 (k a)) → within E (S1 ++ S2) (bind m k).
Proof.
  intros Hm Hk t. unfold bind.
  destruct (Hm t) as (r1 & a1 & -> & Hpre1 & Hall1 & Hcatch1).
  destruct r1 as [e|a].
  - exists (Raise e), a1. split; [done|]. split; [by apply prefix_app_r|].
    intros Ht e' [= <-]. by apply (Hcatch1 Ht e).
  - destruct (Hk a (t ++ a1)%list) as (r2 & a2 & -> & Hpre2 & Hcatch2).
    exists r2, (a1 ++ a2)%list. rewrite app_assoc. split; [done|].
    unfold stages in *. rewrite omap_app, (Hall1 a eq_refl).
    split; [by apply prefix_app | done].
Qed.

Lemma through_get_channel_stats (channel_id : string) :
  through E [1%nat] (get_channel_stats E channel_id).
Proof.
  intros t. destruct (get_channel_stats_outcome E channel_id t) as (r & -> & Hcatch).
  eexists _, _. split; [done|]. split; [done|]. split; [done|].
  intros (_ & H & _). by apply Hcatch.
Qed.

Lemma through_get_video_ids (playlist_id : json) :
  through E [2%nat] (get_video_ids E playlist_id).
Proof.
  intros t. destruct (get_video_ids_outcome E playlist_id t) as (r & -> & Hcatch).
  eexists _, _. split; [done|]. split; [done|]. split; [done|].
  intros (_ & H & _). by apply Hcatch.
Qed.

Lemma through_get_video_details (video_ids : list json) :
  through E [3%nat] (get_video_details E video_ids).
Proof.
  intros t. destruct (join "," video_ids) as [e|id] eqn:Hid.
  - rewrite (get_video_details_bad_ids E video_ids e t Hid).
    exists (Raise e), []. rewrite app_nil_r. split; [done|].
    split; [apply prefix_nil|]. split; [discriminate|].
    intros _ e' [= <-]. by apply (catchable_join "," video_ids).
  - destruct (get_video_details_outcome E video_ids t) as (r & added & Hrun & _ & Hcatch).
    rewrite (get_video_details_run E video_ids id t Hid) in Hrun |- *.
    eexists _, [Youtube (videos_request id)]. split; [done|].
    split; [done|]. split; [done|].
    intros (_ & H & _). injection Hrun as <- _. by apply Hcatch.
Qed.

Lemma through_analyze_with_gemini (df : DataFrame) :
  through E [4%nat] (analyze_with_gemini E df).
Proof.
  intros t. unfold analyze_with_gemini, bind, lift, call_generate, perform.
  destruct (select df _) as [e|selected] eqn:Hsel; simpl.
  - exists (Raise e), []. rewrite app_nil_r. split; [done|].
    split; [apply prefix_nil|]. split; [discriminate|].
    intros _ e' [= <-]. by apply (catchable_select df ["Title"; "Views"; "Likes"]).
  - eexists _, _. split; [done|]. split; [done|]. split; [done|].
    intros (_ & _ & H & _). apply H.
Qed.

Lemma within_bind_quiet {A B} (S : list nat) (m : M A) (k : A → M B) :
  within E S m → (∀ a, through E [] (k a)) → within E S (bind m k).
Proof.
  intros Hm Hk t. unfold bind.
  destruct (Hm t) as (r1 & a1 & -> & Hpre1 & Hcatch1).
  destruct r1 as [e|a].
  - exists (Raise e), a1. split; [done|]. split; [done|].
    intros Ht e' [= <-]. by apply (Hcatch1 Ht e).
  - destruct (Hk a (t ++ a1)%list) as (r2 & a2 & -> & Hpre2 & _ & Hcatch2).
    exists r2, (a1 ++ a2)%list. rewrite app_assoc. split; [done|].
    unfold stages in *. rewrite omap_app, (prefix_nil_inv _ Hpre2), app_nil_r. done.
Qed.

(** [try: body / except Exception as e: st.error(...)] adds no request of
    its own; with tame oracles what comes out is a normal return or the
    outcome of drawing the error box. *)
Lemma try_except_outcome (S : list nat) (body : M unit) (box : exn → widget) :
  within E S body →
  ∀ t, ∃ r added,
    try_except body (λ e, draw E (box e)) t = (r, (t ++ added)%list) ∧
    stages added `prefix_of` S ∧
    (tame E → r = Ok () ∨ ∃ e, r = render E (box e)).
Proof.
  intros Hbody t. unfold try_except.
  destruct (Hbody t) as (r & added & -> & Hpre & Hcatch).
  destruct r as [e|[]].
  - destruct (is_Exception e) eqn:Hexc.
    + unfold draw, perform. exists (render E (box e)), (added ++ [Streamlit (box e)])%list.
      rewrite app_assoc. split; [done|]. split.
      * unfold stages in *. by rewrite omap_app, app_nil_r.
      * intros _. right. by exists e.
    + exists (Raise e), added. split; [done|]. split; [done|].
      intros Ht. specialize (Hcatch Ht e eq_refl). congruence.
  - exists (Ok ()), added. split; [done|]. split; [done|]. by left.
Qed.

(** The body of the block, stage by stage. *)
Lemma main_area_body_within (key : json) (channel_id : string) :
  ∀ t, ∃ r added,
    main_area E key channel_id t = (r, (t ++ added)%list) ∧
    stages added `prefix_of` [1; 2; 3; 4]%nat ∧
    (tame E → r = Ok () ∨ ∃ e, r = render E (st_error_exception "Error: " e)).
Proof.
  unfold main_area. apply (try_except_outcome [1; 2; 3; 4]%nat).
  apply (within_bind [] [1; 2; 3; 4]%nat); [apply through_call_sdk | intros _].
  apply (within_bind [] [1; 2; 3; 4]%nat); [apply through_draw | intros _].
  apply (within_bind [1%nat] [2; 3; 4]%nat);
    [apply through_get_channel_stats | intros channel_info].
  destruct (truthy channel_info).
  - apply through_within.
    do 7 (apply (through_bind [] [2; 3; 4]%nat);
          [first [apply through_draw | apply through_lift, catchable_getpath] | intros ?]).
    apply (through_bind [2%nat] [3; 4]%nat); [apply through_get_video_ids | intros video_ids].
    apply (through_bind [3%nat] [4%nat]); [apply through_get_video_details | intros video_data].
    do 11 (apply (through_bind [] [4%nat]); [apply through_draw | intros _]).
    apply (through_bind [4%nat] []); [apply through_analyze_with_gemini | intros analysis].
    apply (through_bind [] []); [apply through_draw | intros _].
    apply through_draw.
  - apply (within_weaken []); [apply prefix_nil|].
    apply through_within, through_draw.
Qed.

End Staging.

(** ** Whole runs of the script *)

Section Runs.

Variable E : env.

Lemma main_area_within (key : json) (channel_id : string) :
  within E [1; 2; 3; 4]%nat (main_area E key channel_id).
Proof.
  intros t. destruct (main_area_body_within E key channel_id t)
    as (r & added & Hrun & Hpre & Hres).
  exists r, added. split; [done|]. split; [done|].
  intros Ht. destruct (Hres Ht) as [-> | [e ->]]; [apply catchable_Ok|].
  destruct Ht as (_ & _ & _ & Hrender). apply Hrender.
Qed.

Lemma load_secrets_outcome (secrets : option (gmap string json)) (t : list effect) :
  ∃ r added, load_secrets E secrets t = (r, (t ++ added)%list) ∧ stages added = [].
Proof.
  unfold load_secrets, try_except_bare, bind, lift, ret, draw, stop, perform.
  destruct (read_secret secrets "YOUTUBE_API_KEY") as [e1|y]; simpl;
    [|destruct (read_secret secrets "GEMINI_API_KEY") as [e2|g]; simpl].
  3: { eexists _, []. by rewrite app_nil_r. }
  all: destruct (render E (st_error secrets_message)) as [e|[]];
    [ by eexists _, [_] | eexists _, [_; _]; by rewrite <- app_assoc ].
Qed.

Lemma bind_run {A B} (m : M A) (k : A → M B) (t t' : list effect) (r : result A) :
  m t = (r, t') →
  bind m k t = match r with inl e => (inl e, t') | inr a => k a t' end.
Proof. intros H. unfold bind. by rewrite H. Qed.

Lemma length_network_calls (t : list effect) :
  length (network_calls t) = length (stages t).
Proof.
  unfold network_calls, stages. induction t as [|e t IH]; [done|].
  rewrite filter_cons. simpl.
  destruct e as [c|[]| |w]; simpl; rewrite ?IH; done.
Qed.

(** What follows the set-up block in a run. *)
Lemma app_rest_within (keys : json * json) (channel_id_input : string)
    (clicked analyze : bool) :
  within E [1; 2; 3; 4]%nat
    (call_sdk E (genai_configure keys.2) ;;
     draw E (st_set_page_config "TubeMind AI" "🧠" "wide") ;;
     draw E (st_title "🧠 TubeMind AI") ;;
     draw E (st_subheader "The AI-Powered Content Strategist") ;;
     draw E st_sidebar ;;
     draw E (st_header "👇 Enter Channel Details") ;;
     draw E (st_text_input "YouTube Channel ID" "UCeVMnSShP_Iviwkknt83cww") ;;
     draw E (st_button "Analyze Channel") ;;
     let analyze := if clicked then true else analyze in
     if analyze then (main_area E keys.1 channel_id_input ;; ret analyze)
     else ret analyze).
Proof.
  apply (within_bind E [] [1; 2; 3; 4]%nat); [apply (through_call_sdk E) | intros _].
  do 7 (apply (within_bind E [] [1; 2; 3; 4]%nat); [apply (through_draw E) | intros _]).
  destruct (if clicked then true else analyze).
  - apply (within_bind_quiet E); [apply main_area_within | intros; apply (through_ret E)].
  - apply (within_weaken E []); [apply prefix_nil | apply through_within, through_ret].
Qed.

(** X1: every run sends its requests in pipeline order, each stage at most
    once and only after the one before it: the requests of a run are an
    initial part of channels-list, playlist-items, videos-list,
    generate-content.  So a run makes at most four network calls. *)
Theorem app_requests_in_pipeline_order
    (secrets : option (gmap string json)) (channel_id_input : string)
    (clicked analyze : bool) (t : list effect) :
  ∃ r added,
    app E secrets channel_id_input clicked analyze t = (r, (t ++ added)%list) ∧
    stages added `prefix_of` [1; 2; 3; 4]%nat ∧
    (length (network_calls added) ≤ 4)%nat.
Proof.
  destruct (load_secrets_outcome secrets t) as (r1 & a1 & Hload & Hquiet).
  unfold app. rewrite (bind_run _ _ _ _ _ Hload).
  destruct r1 as [e|keys].
  - exists (Raise e), a1. split; [done|]. rewrite length_network_calls, Hquiet.
    split; [apply prefix_nil | simpl; lia].
  - destruct (app_rest_within keys channel_id_input clicked analyze (t ++ a1)%list)
      as (r & a2 & Hrun & Hpre & _).
    exists r, (a1 ++ a2)%list. rewrite app_assoc. split; [exact Hrun|].
    assert (stages (a1 ++ a2) = stages a2) as Hst.
    { unfold stages in *. by rewrite omap_app, Hquiet. }
    rewrite length_network_calls, Hst. split; [done|].
    apply prefix_length in Hpre. simpl in Hpre. lia.
Qed.

(** X2: the block under the session flag never lets a failure of its
    stages escape: when the oracles only raise what [except Exception]
    catches and Streamlit draws what it is asked to, the block returns
    normally, whatever the upstream services answer. *)
Theorem main_area_always_returns (key : json) (channel_id : string) (t : list effect) :
  tame E →
  (∀ w, render E w = Ok ()) →
  (main_area E key channel_id t).1 = Ok ().
Proof.
  intros Htame Hrender.
  destruct (main_area_body_within E key channel_id t) as (r & added & -> & _ & Hres).
  destruct (Hres Htame) as [-> | [e ->]]; [done | apply Hrender].
Qed.

End Runs.

(** ** More on the fetching stages *)

Section Stage_edges.

Variable E : env.

Lemma join_strings (sep : string) (ss : list string) :
  join sep (JStr <$> ss) = Ok (String.concat sep ss).
Proof.
  induction ss as [|s ss IH]; [done|].
  destruct ss as [|s' ss]; [done|].
  change (join sep (JStr <$> s :: s' :: ss))
    with (let? t := join sep (JStr <$> s' :: ss) in Ok (s +:+ sep +:+ t)).
  by rewrite IH.
Qed.

Lemma join_non_string (sep : string) (xs : list json) (v : json) :
  v ∈ xs → ¬ is_str v → join sep xs = Raise TypeError.
Proof.
  intros Hin Hv. induction xs as [|x xs IH]; [by apply elem_of_nil in Hin|].
  apply elem_of_cons in Hin as [<- | Hin].
  - destruct v; simpl in *; done.
  - specialize (IH Hin). destruct x; try done.
    destruct xs as [|y ys]; [by apply elem_of_nil in Hin|].
    change (join sep (JStr s :: y :: ys))
      with (let? t := join sep (y :: ys) in Ok (s +:+ sep +:+ t)).
    by rewrite IH.
Qed.

(** X4: an identifier that is not a string stops the Video Detail Fetcher
    with [TypeError] before any request is sent. *)
Theorem get_video_details_rejects_non_string_id
    (video_ids : list json) (v : json) (t : list effect) :
  v ∈ video_ids → ¬ is_str v →
  get_video_details E video_ids t = (Raise TypeError, t).
Proof.
  intros Hin Hv. apply get_video_details_bad_ids. by eapply join_non_string.
Qed.

Lemma get_video_ids_strings (playlist_id : json) (t : list effect)
    (d : gmap string json) (items : list json) (ss : list string) :
  execute E (playlist_request playlist_id) = Ok (JDict d) →
  d !! "items" = Some (JList items) →
  Forall2 (λ item s, video_id_of item = Ok (JStr s)) items ss →
  get_video_ids E playlist_id t =
    (Ok (JStr <$> ss), (t ++ [Youtube (playlist_request playlist_id)])%list).
Proof.
  intros Hresp Hitems Hids. rewrite get_video_ids_run, Hresp. simpl.
  rewrite Hitems. simpl. f_equal.
  apply for_append_Ok. exists (JStr <$> ss). split; [|done].
  by apply Forall2_fmap_r.
Qed.

(** X5: the two middle stages compose: the identifiers read from the
    playlist answer, in its order, become the comma-separated [id] parameter
    of the one batch request that follows. *)
Theorem playlist_ids_become_batch_parameter
    (playlist_id : json) (t : list effect)
    (d : gmap string json) (items : list json) (ss : list string) :
  execute E (PlaylistItemsList "contentDetails" playlist_id 10) = Ok (JDict d) →
  d !! "items" = Some (JList items) →
  Forall2 (λ item s, video_id_of item = Ok (JStr s)) items ss →
  ((let* video_ids := get_video_ids E playlist_id in
    get_video_details E video_ids) t).2 =
  (t ++ [ Youtube (PlaylistItemsList "contentDetails" playlist_id 10);
          Youtube (VideosList "snippet,statistics" (String.concat "," ss)) ])%list.
Proof.
  intros Hresp Hitems Hids. unfold bind.
  rewrite (get_video_ids_strings playlist_id t d items ss Hresp Hitems Hids).
  unfold Ok. cbv beta iota. fold (@Ok (list json)).
  rewrite (get_video_details_run E _ _ _ (join_strings "," ss)).
  simpl. by rewrite <- app_assoc.
Qed.

(** X6: a playlist item without [contentDetails], or whose
    [contentDetails] has no [videoId], raises [KeyError] on that key, and
    the Playlist Enumerator then raises as a whole: it never returns the
    identifiers of the other items alone. *)
Theorem playlist_item_without_id_is_fatal (item : gmap string json) :
  item !! "contentDetails" = None ∨
    (∃ details : gmap string json,
       item !! "contentDetails" = Some (JDict details) ∧ details !! "videoId" = None) →
  video_id_of (JDict item) =
    Raise (KeyError (JStr (match item !! "contentDetails" with
                           | Some _ => "videoId"
                           | None => "contentDetails"
                           end))) ∧
  ∀ (playlist_id : json) (t : list effect) (d : gmap string json) (items : list json),
    execute E (PlaylistItemsList "contentDetails" playlist_id 10) = Ok (JDict d) →
    d !! "items" = Some (JList items) →
    JDict item ∈ items →
    ∃ e, get_video_ids E playlist_id t =
         (Raise e, (t ++ [Youtube (PlaylistItemsList "contentDetails" playlist_id 10)])%list).
Proof.
  intros Hmissing.
  assert (video_id_of (JDict item) =
          Raise (KeyError (JStr (match item !! "contentDetails" with
                                 | Some _ => "videoId"
                                 | None => "contentDetails"
                                 end)))) as Hitem.
  { unfold video_id_of. simpl.
    destruct Hmissing as [-> | (details & -> & Hid)]; simpl; [done|]. by rewrite Hid. }
  split; [exact Hitem|].
  intros playlist_id t d items Hresp Hitems Hin.
  rewrite get_video_ids_run. unfold playlist_request. rewrite Hresp. simpl.
  rewrite Hitems. simpl.
  destruct (for_append_Raise video_id_of items [] _ _ Hin Hitem) as [e ->].
  by exists e.
Qed.

(** X7: an answer object without an [items] key makes the Playlist
    Enumerator and the Video Detail Fetcher raise [KeyError('items')] after
    their one request; neither falls back to an empty result. *)
Theorem answer_without_items_raises :
  (∀ (playlist_id : json) (t : list effect) (d : gmap string json),
     execute E (PlaylistItemsList "contentDetails" playlist_id 10) = Ok (JDict d) →
     d !! "items" = None →
     get_video_ids E playlist_id t =
       (Raise (KeyError (JStr "items")),
        (t ++ [Youtube (PlaylistItemsList "contentDetails" playlist_id 10)])%list)) ∧
  (∀ (video_ids : list json) (id : string) (t : list effect) (d : gmap string json),
     join "," video_ids = Ok id →
     execute E (VideosList "snippet,statistics" id) = Ok (JDict d) →
     d !! "items" = None →
     get_video_details E video_ids t =
       (Raise (KeyError (JStr "items")),
        (t ++ [Youtube (VideosList "snippet,statistics" id)])%list)).
Proof.
  split.
  - intros playlist_id t d Hresp Hitems. rewrite get_video_ids_run.
    unfold playlist_request. rewrite Hresp. simpl. by rewrite Hitems.
  - intros video_ids id t d Hid Hresp Hitems.
    rewrite (get_video_details_run E video_ids id t Hid).
    unfold videos_request. rewrite Hresp. simpl. by rewrite Hitems.
Qed.

End Stage_edges.

(** ** More on records and on the summarizer *)

Section Record_edges.

Variable E : env.


(** X9: when the table lacks any of the three columns the summarizer
    raises and makes no request to the model. *)
Theorem analyze_with_gemini_missing_column
    (df : DataFrame) (c : string) (t : list effect) :
  c ∈ ["Title"; "Views"; "Likes"] →
  c ∉ columns df →
  ∃ e, analyze_with_gemini E df t = (Raise e, t).
Proof.
  intros Hin Hout.
  destruct (select_absent df ["Title"; "Views"; "Likes"] c Hin Hout) as [e He].
  unfold analyze_with_gemini, bind, lift. rewrite He. by exists e.
Qed.

Lemma analyze_with_gemini_records (records : list VideoRecord) (t : list effect) :
  records ≠ [] →
  let prompt :=
    prompt_of (to_string E
      {| columns := summary_columns;
         dtypes := summary_dtypes E records;
         rows := summary_row <$> take 5 records |}) in
  analyze_with_gemini E (pd_DataFrame E records) t =
    (generate_content E "gemini-2.5-flash" prompt,
     (t ++ [Gemini "gemini-2.5-flash" prompt])%list).
Proof.
  intros Hne. destruct records as [|r records]; [done|].
  assert (Forall (λ c, c ∈ columns (pd_DataFrame E (r :: records))) summary_columns)
    as Hcols.
  { simpl. unfold summary_columns, record_columns. repeat constructor; set_solver. }
  rewrite (analyze_with_gemini_run E _ t Hcols). cbv zeta.
  replace (column_dtype (pd_DataFrame E (r :: records)) <$> summary_columns)
    with (summary_dtypes E (r :: records)) by done.
  replace (rows (pd_DataFrame E (r :: records))) with (row_of <$> (r :: records)) by done.
  replace (columns (pd_DataFrame E (r :: records))) with record_columns by done.
  rewrite <- fmap_take, <- list_fmap_compose.
  do 4 f_equal.
Qed.

(** X10: the request to the model depends on a non-empty record set only
    through the title, views and likes of its first five records and the
    dtypes pandas inferred for those three columns (which it takes from the
    whole columns): record sets that agree on these give the same request,
    whatever their comment counts and thumbnails are. *)
Theorem prompt_ignores_the_rest (records records' : list VideoRecord) (t : list effect) :
  records ≠ [] → records' ≠ [] →
  summary_row <$> take 5 records = summary_row <$> take 5 records' →
  summary_dtypes E records = summary_dtypes E records' →
  analyze_with_gemini E (pd_DataFrame E records) t =
  analyze_with_gemini E (pd_DataFrame E records') t.
Proof.
  intros Hne Hne' Hsame Hdtypes.
  rewrite (analyze_with_gemini_records records t Hne).
  rewrite (analyze_with_gemini_records records' t Hne').
  cbv zeta. by rewrite Hsame, Hdtypes.
Qed.

End Record_edges.

(** ** More on whole runs *)

Section Run_paths.

Variable E : env.

Lemma draw_Ok (w : widget) (t : list effect) :
  render E w = Ok () → draw E w t = (Ok (), (t ++ [Streamlit w])%list).
Proof. intros H. unfold draw, perform. by rewrite H. Qed.

Lemma call_sdk_Ok (c : sdk_call) (t : list effect) :
  sdk E c = Ok () → call_sdk E c t = (Ok (), (t ++ [Sdk c])%list).
Proof. intros H. unfold call_sdk, perform. by rewrite H. Qed.

Lemma try_except_Ok {A} (body : M A) (handler : exn → M A)
    (t t' : list effect) (a : A) :
  body t = (Ok a, t') → try_except body handler t = (Ok a, t').
Proof. intros H. unfold try_except. by rewrite H. Qed.

Lemma get_channel_stats_first (channel_id : string) (t : list effect)
    (d : gmap string json) (first : json) (others : list json) :
  execute E (channels_request channel_id) = Ok (JDict d) →
  d !! "items" = Some (JList (first :: others)) →
  get_channel_stats E channel_id t =
    (Ok first, (t ++ [Youtube (channels_request channel_id)])%list).
Proof.
  intros Hresp Hitems. rewrite get_channel_stats_run, Hresp. simpl. by rewrite Hitems.
Qed.

Lemma get_video_details_records (video_ids : list json) (id : string) (t : list effect)
    (d : gmap string json) (items : list json) (records : list VideoRecord) :
  join "," video_ids = Ok id →
  execute E (videos_request id) = Ok (JDict d) →
  d !! "items" = Some (JList items) →
  Forall2 (λ item r, video_record E item = Ok r) items records →
  get_video_details E video_ids t =
    (Ok records, (t ++ [Youtube (videos_request id)])%list).
Proof.
  intros Hid Hresp Hitems Hrecords.
  rewrite (get_video_details_run E video_ids id t Hid), Hresp. simpl.
  rewrite Hitems. simpl. f_equal. apply for_append_Ok. by exists records.
Qed.

(** Runs the next statement of a script whose outcome is known. *)
Ltac next tac :=
  erewrite bind_run by tac; unfold Ok; cbv beta iota.

(** X11: the whole block on a healthy answer.  The uploads playlist named by
    the channel is the one enumerated, its identifiers are the ones fetched,
    the fetched records are what both charts and the prompt are built from,
    and the model's text is what is shown; the four requests and all the
    output happen in the order of the source. *)
Theorem main_area_happy_path
    (key : json) (channel_id : string) (t : list effect)
    (d dp dv : gmap string json) (channel_info : json) (others pitems vitems : list json)
    (src title subscribers uploads : json) (ss : list string)
    (records : list VideoRecord) (analysis : string) :
  (∀ c, sdk E c = Ok ()) →
  (∀ w, render E w = Ok ()) →
  execute E (ChannelsList "snippet,contentDetails,statistics" channel_id) = Ok (JDict d) →
  d !! "items" = Some (JList (channel_info :: others)) →
  truthy channel_info = true →
  getpath channel_info ["snippet"; "thumbnails"; "medium"; "url"] = Ok src →
  getpath channel_info ["snippet"; "title"] = Ok title →
  getpath channel_info ["statistics"; "subscriberCount"] = Ok subscribers →
  getpath channel_info ["contentDetails"; "relatedPlaylists"; "uploads"] = Ok uploads →
  execute E (PlaylistItemsList "contentDetails" uploads 10) = Ok (JDict dp) →
  dp !! "items" = Some (JList pitems) →
  Forall2 (λ item s, video_id_of item = Ok (JStr s)) pitems ss →
  execute E (VideosList "snippet,statistics" (String.concat "," ss)) = Ok (JDict dv) →
  dv !! "items" = Some (JList vitems) →
  Forall2 (λ item r, video_record E item = Ok r) vitems records →
  records ≠ [] →
  let prompt :=
    prompt_of (to_string E
      {| columns := ["Title"; "Views"; "Likes"];
         dtypes := summary_dtypes E records;
         rows := summary_row <$> take 5 records |}) in
  generate_content E "gemini-2.5-flash" prompt = Ok analysis →
  main_area E key channel_id t =
    (Ok (),
     (t ++ [ Sdk (discovery_build "youtube" "v3" key);
             Streamlit (st_spinner "Fetching Channel Data...");
             Youtube (ChannelsList "snippet,contentDetails,statistics" channel_id);
             Streamlit (st_image src 100);
             Streamlit (st_write "**Channel:** " title);
             Streamlit (st_write "**Subscribers:** " subscribers);
             Youtube (PlaylistItemsList "contentDetails" uploads 10);
             Youtube (VideosList "snippet,statistics" (String.concat "," ss));
             Streamlit st_divider;
             Streamlit (st_columns 2);
             Streamlit (st_column 1);
             Streamlit (st_subheader "📈 View Count Analysis");
             Streamlit (st_bar_chart (pd_DataFrame E records) "Title" "Views");
             Streamlit (st_column 2);
             Streamlit (st_subheader "👍 Likes Analysis");
             Streamlit (st_line_chart (pd_DataFrame E records) "Title" "Likes");
             Streamlit st_divider;
             Streamlit (st_subheader "🤖 AI Consultant Report");
             Streamlit (st_spinner "Gemini is analyzing the trends...");
             Gemini "gemini-2.5-flash" prompt;
             Streamlit (st_success "Analysis Complete!");
             Streamlit (st_markdown analysis) ])%list).
Proof.
  intros Hsdk Hrender Hchannels Hitems Htruthy Hsrc Htitle Hsubs Huploads
    Hplaylist Hpitems Hids Hvideos Hvitems Hrecords Hne prompt Hanalysis.
  unfold main_area. apply try_except_Ok.
  next ltac:(apply call_sdk_Ok, Hsdk).
  next ltac:(apply draw_Ok, Hrender).
  next ltac:(apply (get_channel_stats_first channel_id _ d channel_info others
                      Hchannels Hitems)).
  rewrite Htruthy.
  next ltac:(unfold lift; rewrite Hsrc; reflexivity).
  next ltac:(apply draw_Ok, Hrender).
  next ltac:(unfold lift; rewrite Htitle; reflexivity).
  next ltac:(apply draw_Ok, Hrender).
  next ltac:(unfold lift; rewrite Hsubs; reflexivity).
  next ltac:(apply draw_Ok, Hrender).
  next ltac:(unfold lift; rewrite Huploads; reflexivity).
  next ltac:(apply (get_video_ids_strings E uploads _ dp pitems ss Hplaylist Hpitems Hids)).
  next ltac:(apply (get_video_details_records _ _ _ dv vitems records
                      (join_strings "," ss) Hvideos Hvitems Hrecords)).
  do 11 (next ltac:(apply draw_Ok, Hrender)).
  next ltac:(rewrite (analyze_with_gemini_records E records _ Hne); cbv zeta;
             unfold summary_columns; fold prompt; rewrite Hanalysis; reflexivity).
  next ltac:(apply draw_Ok, Hrender).
  rewrite (draw_Ok _ _ (Hrender _)).
  unfold channels_request, playlist_request, videos_request.
  rewrite <- !app_assoc. reflexivity.
Qed.

(** X12: a lookup result that is falsy (not only [None]: an empty object as
    first item counts too) takes the else branch: the block shows
    "Channel not found! Check the ID." and returns normally after its single
    request. *)
Theorem main_area_reports_not_found
    (key : json) (channel_id : string) (t : list effect) (channel_info : json) :
  sdk E (discovery_build "youtube" "v3" key) = Ok () →
  render E (st_spinner "Fetching Channel Data...") = Ok () →
  render E (st_error "Channel not found! Check the ID.") = Ok () →
  (get_channel_stats E channel_id []).1 = Ok channel_info →
  truthy channel_info = false →
  main_area E key channel_id t =
    (Ok (),
     (t ++ [ Sdk (discovery_build "youtube" "v3" key);
             Streamlit (st_spinner "Fetching Channel Data...");
             Youtube (ChannelsList "snippet,contentDetails,statistics" channel_id);
             Streamlit (st_error "Channel not found! Check the ID.") ])%list).
Proof.
  intros Hsdk Hspin Herror Hinfo Hfalsy.
  rewrite get_channel_stats_run in Hinfo. simpl in Hinfo.
  unfold main_area. apply try_except_Ok.
  next ltac:(apply call_sdk_Ok, Hsdk).
  next ltac:(apply draw_Ok, Hspin).
  next ltac:(rewrite get_channel_stats_run, Hinfo; reflexivity).
  rewrite Hfalsy, (draw_Ok _ _ Herror).
  unfold channels_request. rewrite <- !app_assoc. reflexivity.
Qed.

Lemma load_secrets_present (store : gmap string json) (youtube gemini : json)
    (t : list effect) :
  store !! "YOUTUBE_API_KEY" = Some youtube →
  store !! "GEMINI_API_KEY" = Some gemini →
  load_secrets E (Some store) t = (Ok (youtube, gemini), t).
Proof.
  intros Hy Hg. unfold load_secrets, try_except_bare, bind, lift, ret. simpl.
  by rewrite Hy, Hg.
Qed.

(** X13: with both credentials in the store, a run first configures the
    Gemini client with the Gemini key and draws the page; then, if the flag
    is or becomes set, it runs the main area with the YouTube key and the
    channel identifier that was typed, and otherwise it does nothing more. *)
Theorem app_with_credentials
    (store : gmap string json) (youtube gemini : json)
    (channel_id_input : string) (clicked analyze : bool) (t : list effect) :
  store !! "YOUTUBE_API_KEY" = Some youtube →
  store !! "GEMINI_API_KEY" = Some gemini →
  sdk E (genai_configure gemini) = Ok () →
  (∀ w, render E w = Ok ()) →
  app E (Some store) channel_id_input clicked analyze t =
    if clicked || analyze
    then (main_area E youtube channel_id_input ;; ret true)
           (t ++ page_header gemini)%list
    else (Ok false, (t ++ page_header gemini)%list).
Proof.
  intros Hy Hg Hsdk Hrender. unfold app.
  next ltac:(apply (load_secrets_present store youtube gemini _ Hy Hg)).
  cbn [fst snd].
  next ltac:(apply call_sdk_Ok, Hsdk).
  do 7 (next ltac:(apply draw_Ok, Hrender)).
  rewrite <- !app_assoc. cbn [app]. fold (page_header gemini).
  destruct clicked, analyze; reflexivity.
Qed.

(** X14: with both credentials, tame oracles and a Streamlit that draws, no
    failure of a stage ends the run: it returns normally, with the flag set
    exactly when it was set before or the button was clicked. *)
Theorem app_run_completes
    (store : gmap string json) (youtube gemini : json)
    (channel_id_input : string) (clicked analyze : bool) (t : list effect) :
  store !! "YOUTUBE_API_KEY" = Some youtube →
  store !! "GEMINI_API_KEY" = Some gemini →
  sdk E (genai_configure gemini) = Ok () →
  tame E →
  (∀ w, render E w = Ok ()) →
  (app E (Some store) channel_id_input clicked analyze t).1 = Ok (clicked || analyze).
Proof.
  intros Hy Hg Hsdk Htame Hrender. unfold app.
  next ltac:(apply (load_secrets_present store youtube gemini _ Hy Hg)).
  cbn [fst snd].
  next ltac:(apply call_sdk_Ok, Hsdk).
  do 7 (next ltac:(apply draw_Ok, Hrender)).
  destruct (clicked || analyze) eqn:Hflag.
  - assert ((if clicked then true else analyze) = true) as -> by (by destruct clicked).
    unfold bind.
    match goal with
    | |- context [main_area E youtube channel_id_input ?t'] =>
        destruct (main_area_body_within E youtube channel_id_input t')
          as (r & added & -> & _ & Hres)
    end.
    destruct (Hres Htame) as [-> | [e ->]]; [done|]. by rewrite Hrender.
  - assert ((if clicked then true else analyze) = false) as ->
      by (by destruct clicked, analyze).
    done.
Qed.

(** X15: a run without a click and without the flag never reaches the main
    area: whatever the secrets and the oracles are, it sends no request. *)
Theorem app_idle_run_sends_nothing
    (secrets : option (gmap string json)) (channel_id_input : string) (t : list effect) :
  ∃ r added,
    app E secrets channel_id_input false false t = (r, (t ++ added)%list) ∧
    network_calls added = [].
Proof.
  destruct (load_secrets_outcome E secrets t) as (r1 & a1 & Hload & Hquiet).
  unfold app. rewrite (bind_run _ _ _ _ _ Hload).
  destruct r1 as [e|keys].
  - exists (Raise e), a1. split; [done|].
    apply length_zero_iff_nil. by rewrite length_network_calls, Hquiet.
  - match goal with
    | |- context [bind ?m ?k (t ++ a1)%list] =>
        assert (within E [] (bind m k)) as Hrest
    end.
    { apply (within_bind E [] []); [apply (through_call_sdk E) | intros _].
      do 7 (apply (within_bind E [] []); [apply (through_draw E) | intros _]).
      apply through_within, through_ret. }
    destruct (Hrest (t ++ a1)%list) as (r & a2 & -> & Hpre & _).
    exists r, (a1 ++ a2)%list. rewrite app_assoc. split; [done|].
    apply length_zero_iff_nil. rewrite length_network_calls.
    unfold stages in *. by rewrite omap_app, Hquiet, (prefix_nil_inv _ Hpre).
Qed.

End Run_paths.

(** ** The further properties on the sample worlds *)

Lemma tame_world (channels playlist videos : result json) :
  catchable channels → catchable playlist → catchable videos →
  tame (Sample.world channels playlist videos).
Proof.
  intros Hc Hp Hv. repeat split; simpl; try (intros; apply catchable_Ok).
  intros [| |]; done.
Qed.

(** A failed lookup is reported, and the block still returns. *)
Lemma main_area_always_returns_witness :
  (main_area Sample.failing_lookup (JStr "k1") "UC1" []).1 = Ok ().
Proof.
  apply main_area_always_returns.
  - apply tame_world; [by intros e [= <-] | apply catchable_Ok | apply catchable_Ok].
  - reflexivity.
Defined.

(** A number among the identifiers. *)
Lemma get_video_details_rejects_non_string_id_witness :
  get_video_details Sample.two_uploads [JStr "a"; JInt 3] [] = (Raise TypeError, []).
Proof.
  apply (get_video_details_rejects_non_string_id Sample.two_uploads _ (JInt 3)).
  - apply list_elem_of_further, list_elem_of_here.
  - simpl. tauto.
Defined.

(** Identifiers a, b of the playlist become the parameter "a,b". *)
Lemma playlist_ids_become_batch_parameter_witness :
  ((let* video_ids := get_video_ids Sample.two_uploads (JStr "UU1") in
    get_video_details Sample.two_uploads video_ids) []).2 =
  [ Youtube (PlaylistItemsList "contentDetails" (JStr "UU1") 10);
    Youtube (VideosList "snippet,statistics" "a,b") ].
Proof.
  apply (playlist_ids_become_batch_parameter Sample.two_uploads (JStr "UU1") []
           (list_to_map [("items", JList [Sample.playlist_item "a";
                                          Sample.playlist_item "b"])])
           [Sample.playlist_item "a"; Sample.playlist_item "b"] ["a"; "b"]).
  - reflexivity.
  - vm_compute. reflexivity.
  - repeat (constructor; [vm_compute; reflexivity|]). constructor.
Defined.

(** A playlist whose second item names no video. *)
Lemma playlist_item_without_id_is_fatal_witness :
  video_id_of (JDict Sample.without_video_id) = Raise (KeyError (JStr "videoId")) ∧
  ∃ e, get_video_ids (Sample.playlist_with (JDict Sample.without_video_id))
         (JStr "UU1") [] =
       (Raise e, [Youtube (PlaylistItemsList "contentDetails" (JStr "UU1") 10)]).
Proof.
  destruct (playlist_item_without_id_is_fatal
              (Sample.playlist_with (JDict Sample.without_video_id))
              Sample.without_video_id) as [Hitem Hfetch].
  - right. exists ∅. split; vm_compute; reflexivity.
  - split; [exact Hitem|].
    apply (Hfetch (JStr "UU1") []
             (list_to_map [("items", JList [ Sample.playlist_item "a";
                                             JDict Sample.without_video_id ])])
             [Sample.playlist_item "a"; JDict Sample.without_video_id]).
    + reflexivity.
    + vm_compute. reflexivity.
    + apply list_elem_of_further, list_elem_of_here.
Defined.

(** Answers that are empty objects. *)
Lemma answer_without_items_raises_witness :
  get_video_ids Sample.bare_lists (JStr "UU1") [] =
    (Raise (KeyError (JStr "items")),
     [Youtube (PlaylistItemsList "contentDetails" (JStr "UU1") 10)]) ∧
  get_video_details Sample.bare_lists [JStr "a"] [] =
    (Raise (KeyError (JStr "items")),
     [Youtube (VideosList "snippet,statistics" "a")]).
Proof.
  destruct (answer_without_items_raises Sample.bare_lists) as [Hplaylist Hvideos].
  split.
  - apply (Hplaylist (JStr "UU1") [] ∅); reflexivity.
  - apply (Hvideos [JStr "a"] "a" [] ∅); reflexivity.
Defined.

(** The frame of an empty record set lacks the Title column. *)
Lemma analyze_with_gemini_missing_column_witness :
  ∃ e, analyze_with_gemini Sample.two_uploads (pd_DataFrame Sample.two_uploads []) [] = (Raise e, []).
Proof.
  apply (analyze_with_gemini_missing_column Sample.two_uploads (pd_DataFrame Sample.two_uploads []) "Title").
  - apply list_elem_of_here.
  - simpl. apply not_elem_of_nil.
Defined.

(** Two record sets that share the title, views and likes of their first
    five records, and the dtypes of those columns. *)
Lemma prompt_ignores_the_rest_witness :
  analyze_with_gemini Sample.two_uploads (pd_DataFrame Sample.two_uploads Sample.six_records) [] =
  analyze_with_gemini Sample.two_uploads (pd_DataFrame Sample.two_uploads Sample.six_other_records) [].
Proof.
  apply prompt_ignores_the_rest.
  - vm_compute. discriminate.
  - vm_compute. discriminate.
  - vm_compute. reflexivity.
  - vm_compute. reflexivity.
Defined.


(** The run on a channel with two uploads: four requests, in order, and a
    normal return. *)
Lemma main_area_happy_path_witness :
  (main_area Sample.two_uploads (JStr "k1") "UC1" []).1 = Ok () ∧
  network_calls (main_area Sample.two_uploads (JStr "k1") "UC1" []).2 =
    [ Youtube (ChannelsList "snippet,contentDetails,statistics" "UC1");
      Youtube (PlaylistItemsList "contentDetails" (JStr "UU1") 10);
      Youtube (VideosList "snippet,statistics" "a,b");
      Gemini "gemini-2.5-flash"
        (prompt_of (Sample.show_frame
           {| columns := ["Title"; "Views"; "Likes"];
              dtypes := ["object"; "int64"; "int64"];
              rows := [ [JStr "b"; JInt 20; JInt 3]; [JStr "a"; JInt 100; JInt 10] ] |})) ].
Proof.
  rewrite (main_area_happy_path Sample.two_uploads (JStr "k1") "UC1" []
             (list_to_map [("items", JList [Sample.channel])])
             (list_to_map [("items", JList [Sample.playlist_item "a";
                                            Sample.playlist_item "b"])])
             (list_to_map
                [("items",
                  JList [ Sample.video "b" [("viewCount", JStr "20"); ("likeCount", JStr "3")];
                          Sample.video "a" [("viewCount", JStr "100"); ("likeCount", JStr "10");
                                            ("commentCount", JStr "4")] ])])
             Sample.channel []
             [Sample.playlist_item "a"; Sample.playlist_item "b"]
             [ Sample.video "b" [("viewCount", JStr "20"); ("likeCount", JStr "3")];
               Sample.video "a" [("viewCount", JStr "100"); ("likeCount", JStr "10");
                                 ("commentCount", JStr "4")] ]
             (JStr "https://img/channel") (JStr "Sample channel") (JStr "1200") (JStr "UU1")
             ["a"; "b"] Sample.two_records "Great channel!").
  - split; vm_compute; reflexivity.
  - reflexivity.
  - reflexivity.
  - reflexivity.
  - vm_compute. reflexivity.
  - vm_compute. reflexivity.
  - vm_compute. reflexivity.
  - vm_compute. reflexivity.
  - vm_compute. reflexivity.
  - vm_compute. reflexivity.
  - reflexivity.
  - vm_compute. reflexivity.
  - repeat (constructor; [vm_compute; reflexivity|]). constructor.
  - reflexivity.
  - vm_compute. reflexivity.
  - repeat (constructor; [vm_compute; reflexivity|]). constructor.
  - vm_compute. discriminate.
  - reflexivity.
Defined.

(** A first item that is an empty object is reported as not found. *)
Lemma main_area_reports_not_found_witness :
  main_area Sample.hollow_channel (JStr "k1") "UC1" [] =
    (Ok (),
     [ Sdk (discovery_build "youtube" "v3" (JStr "k1"));
       Streamlit (st_spinner "Fetching Channel Data...");
       Youtube (ChannelsList "snippet,contentDetails,statistics" "UC1");
       Streamlit (st_error "Channel not found! Check the ID.") ]).
Proof.
  apply (main_area_reports_not_found Sample.hollow_channel (JStr "k1") "UC1" []
           (Sample.obj [])).
  - reflexivity.
  - reflexivity.
  - reflexivity.
  - vm_compute. reflexivity.
  - vm_compute. reflexivity.
Defined.

(** An idle run with both keys: the Gemini key configures the client and
    nothing else happens. *)
Lemma app_with_credentials_witness :
  app Sample.two_uploads (Some Sample.both_keys) "UC1" false false [] =
    (Ok false, page_header (JStr "k2")).
Proof.
  apply (app_with_credentials Sample.two_uploads Sample.both_keys
           (JStr "k1") (JStr "k2") "UC1" false false []).
  - vm_compute. reflexivity.
  - vm_compute. reflexivity.
  - reflexivity.
  - reflexivity.
Defined.

(** A click on a channel whose lookup fails upstream still ends the run
    normally, with the flag set. *)
Lemma app_run_completes_witness :
  (app Sample.failing_lookup (Some Sample.both_keys) "UC1" true false []).1 = Ok true.
Proof.
  apply (app_run_completes Sample.failing_lookup Sample.both_keys
           (JStr "k1") (JStr "k2") "UC1" true false []).
  - vm_compute. reflexivity.
  - vm_compute. reflexivity.
  - reflexivity.
  - apply tame_world; [by intros e [= <-] | apply catchable_Ok | apply catchable_Ok].
  - reflexivity.
Defined.
